(** * Task pipelines of xlml/apis/task.py

    A shallow embedding of the pipeline-composing operations of
    [xlml/apis/task.py] ([run_queued_resource_test], [XpkTask],
    [GpuCreateResourceTask], [GpuGkeTask]) and of the Airflow operations they
    are written with: decorated task calls, [with TaskGroup(...)] blocks and
    the dependency operator [>>].

    A composing call contributes a fragment to the DAG under construction:
    the tasks it creates and the dependency edges it adds.  The fragment and
    the two configuration objects the code may write to ([task_test_config]
    and [task_metric_config]) form the state that is threaded through the
    call.  Python exceptions are results of the computation; the state
    reached when an exception is raised is kept, as in Python. *)

From Stdlib Require Import String List ZArith Bool Arith Lia.
Import ListNotations.
Open Scope string_scope.
Open Scope list_scope.

(** ** Configuration objects

    The classes of [xlml.apis.test_config], [gcp_config] and [metric_config]
    are declared outside these sources; the records list the attributes that
    task.py reads or writes, with the types it uses them at. *)

(** [datetime.timedelta], a signed number of microseconds. *)
Record timedelta := { microseconds : Z }.

Definition minutes (n : Z) : timedelta := {| microseconds := n * 60000000 |}.

(** [int(td.total_seconds())]: [int] truncates towards zero.  (The float
    that [total_seconds] returns is exact to the microsecond below 2^33
    seconds, about 270 years.) *)
Definition int_total_seconds (td : timedelta) : Z :=
  Z.quot (microseconds td) 1000000.

(** A reference to a task of the DAG, as carried by an [XComArg]: a task
    created by the composing call under consideration ([Fresh], numbered in
    creation order), or a task that existed before the call ([Prior]). *)
Inductive ref :=
| Fresh (k : nat)
| Prior (i : nat).

Definition ref_eqb (a b : ref) : bool :=
  match a, b with
  | Fresh x, Fresh y => Nat.eqb x y
  | Prior x, Prior y => Nat.eqb x y
  | _, _ => false
  end.

(** A file location of the metric configuration: a string, or the [XComArg]
    written over it by run-name generation. *)
Inductive loc :=
| LocStr (s : string)
| LocXCom (r : ref).

(** An entry of [run_model_cmds]: a command string, or the f-string
    [f"export {run_name_env}={run_name}"], which formats the [XComArg]
    [run_name] into the text. *)
Inductive cmd :=
| Cmd (s : string)
| CmdExport (env : string) (run_name : ref).

Record Accelerator := {
  name : string;
  accelerator_type : string;
  count : Z
}.

Record TestConfig := {
  benchmark_id : string;
  test_name : string;
  gcs_subfolder : string;
  setup_script : string;
  test_script : string;
  timeout : timedelta;
  task_owner : string;
  run_model_cmds : list cmd;
  cluster_name : string;
  docker_image : string;
  accelerator : Accelerator;
  num_slices : Z;
  num_hosts : Z
}.

Record GCPConfig := {
  project_name : string;
  zone : string
}.

Record SummaryConfig := {
  summary_file_location : loc
}.

Record ProfileConfig := {
  profile_file_location : loc;
  metrics : option ref
}.

Record MetricConfig := {
  tensorboard_summary : option SummaryConfig;
  profile : option ProfileConfig;
  use_runtime_generated_gcs_folder : bool
}.

(** ** Tasks *)

(** The decorated functions of [xlml.utils] that task.py calls.  Each call
    adds one node to the DAG; a helper that is itself a task group
    ([create_queued_resource], [delete_queued_resource], [create_resource],
    [delete_resource], [run_job], ...) is kept as one node, its inner tasks
    being the helper's business. *)
Inductive callee :=
| generate_tpu_name | generate_ssh_keys | generate_gcs_folder_location
| create_queued_resource | ssh_tpu | delete_queued_resource
| generate_process_id | process_metrics | xplane_to_metrics
| generate_run_name | generate_tb_file_location
| generate_profile_file_location
| generate_workload_id | run_workload | wait_for_workload_start
| wait_for_workload_completion | clean_up_workload
| generate_gpu_name | create_resource | ssh_host | delete_resource
| get_existing_resource | clean_up_ssh_keys
| run_job.

Definition callee_eqb (a b : callee) : bool :=
  match a, b with
  | generate_tpu_name, generate_tpu_name
  | generate_ssh_keys, generate_ssh_keys
  | generate_gcs_folder_location, generate_gcs_folder_location
  | create_queued_resource, create_queued_resource
  | ssh_tpu, ssh_tpu
  | delete_queued_resource, delete_queued_resource
  | generate_process_id, generate_process_id
  | process_metrics, process_metrics
  | xplane_to_metrics, xplane_to_metrics
  | generate_run_name, generate_run_name
  | generate_tb_file_location, generate_tb_file_location
  | generate_profile_file_location, generate_profile_file_location
  | generate_workload_id, generate_workload_id
  | run_workload, run_workload
  | wait_for_workload_start, wait_for_workload_start
  | wait_for_workload_completion, wait_for_workload_completion
  | clean_up_workload, clean_up_workload
  | generate_gpu_name, generate_gpu_name
  | create_resource, create_resource
  | ssh_host, ssh_host
  | delete_resource, delete_resource
  | get_existing_resource, get_existing_resource
  | clean_up_ssh_keys, clean_up_ssh_keys
  | run_job, run_job => true
  | _, _ => false
  end.

Definition callee_name (c : callee) : string :=
  match c with
  | generate_tpu_name => "generate_tpu_name"
  | generate_ssh_keys => "generate_ssh_keys"
  | generate_gcs_folder_location => "generate_gcs_folder_location"
  | create_queued_resource => "create_queued_resource"
  | ssh_tpu => "ssh_tpu"
  | delete_queued_resource => "delete_queued_resource"
  | generate_process_id => "generate_process_id"
  | process_metrics => "process_metrics"
  | xplane_to_metrics => "xplane_to_metrics"
  | generate_run_name => "generate_run_name"
  | generate_tb_file_location => "generate_tb_file_location"
  | generate_profile_file_location => "generate_profile_file_location"
  | generate_workload_id => "generate_workload_id"
  | run_workload => "run_workload"
  | wait_for_workload_start => "wait_for_workload_start"
  | wait_for_workload_completion => "wait_for_workload_completion"
  | clean_up_workload => "clean_up_workload"
  | generate_gpu_name => "generate_gpu_name"
  | create_resource => "create_resource"
  | ssh_host => "ssh_host"
  | delete_resource => "delete_resource"
  | get_existing_resource => "get_existing_resource"
  | clean_up_ssh_keys => "clean_up_ssh_keys"
  | run_job => "run_job"
  end.

(** A JSON-like value, for the dict literal of [_get_job_manifest]. *)
#[warnings="-register-all"]
Inductive json :=
| JStr (s : string)
| JInt (z : Z)
| JBool (b : bool)
| JList (l : list json)
| JDict (kv : list (string * json)).

(** The configuration objects are passed to tasks by reference. *)
Inductive object := The_task_test_config | The_task_metric_config.

(** Argument values of task calls and of [.override(...)]. *)
Inductive arg :=
| AStr (s : string)
| ABool (b : bool)
| AInt (z : Z)
| ATimedelta (t : timedelta)
| ANone
| AXCom (r : ref)
| ALoc (l : loc)
| ADict (kv : list (string * ref))
| AObject (o : object)
| AGcp (g : GCPConfig)
| AAccelerator (a : Accelerator)
| AJson (j : json).

(** An enclosing [TaskGroup]: its [group_id] and [prefix_group_id]. *)
Record group_entry := {
  group_id : string;
  prefix_group_id : bool
}.

Record task := {
  t_callee : callee;
  t_override : list (string * arg);   (* keywords of [.override(...)] *)
  t_args : list arg;                  (* positional arguments *)
  t_kwargs : list (string * arg);     (* keyword arguments *)
  t_groups : list group_entry         (* enclosing groups, innermost first *)
}.

Fixpoint assoc {A : Type} (k : string) (l : list (string * A)) : option A :=
  match l with
  | [] => None
  | (k', v) :: l' => if String.eqb k k' then Some v else assoc k l'
  end.

(** The task's own id within its group: [task_id=] or [group_id=] of the
    override when given, the function's name otherwise. *)
Definition t_label (t : task) : string :=
  match assoc "task_id" (t_override t) with
  | Some (AStr s) => s
  | _ => match assoc "group_id" (t_override t) with
         | Some (AStr s) => s
         | _ => callee_name (t_callee t)
         end
  end.

Definition t_retries (t : task) : option arg := assoc "retries" (t_override t).

(** The [XComArg]s among the arguments of a call: Airflow makes the tasks
    that produce them upstream of the called task. *)
Definition arg_refs (a : arg) : list ref :=
  match a with
  | AXCom r => [r]
  | ALoc (LocXCom r) => [r]
  | ADict kv => map snd kv
  | _ => []
  end.

(** ** The state of a composing call *)

Record world := {
  tasks : list task;                 (* task [Fresh k] is the k-th one *)
  edges : list (ref * ref);          (* (upstream, downstream) *)
  task_test_config : TestConfig;
  task_metric_config : option MetricConfig
}.

Definition init (tc : TestConfig) (mc : option MetricConfig) : world :=
  {| tasks := []; edges := []; task_test_config := tc;
     task_metric_config := mc |}.

Inductive exn :=
| AttributeError (msg : string)
| ValueError.

Inductive result (A : Type) :=
| Ok (a : A)
| Raise (e : exn).
Arguments Ok {A} a.
Arguments Raise {A} e.

(** A computation runs inside the current stack of [with] groups. *)
Definition M (A : Type) : Type := list group_entry -> world -> result A * world.

Definition ret {A} (a : A) : M A := fun _ w => (Ok a, w).

Definition bind {A B} (m : M A) (k : A -> M B) : M B :=
  fun c w =>
    match m c w with
    | (Ok a, w') => k a c w'
    | (Raise e, w') => (Raise e, w')
    end.

Definition raise {A} (e : exn) : M A := fun _ w => (Raise e, w).

Declare Scope task_scope.
Delimit Scope task_scope with task.
Notation "x <- m ;; k" := (bind m (fun x => k))
  (at level 61, m at next level, right associativity) : task_scope.
Notation "' pat <- m ;; k" := (bind m (fun x => match x with pat => k end))
  (at level 61, pat pattern, m at next level, right associativity) : task_scope.
Notation "m ;; k" := (bind m (fun _ => k))
  (at level 61, right associativity) : task_scope.
Open Scope task_scope.

Definition get_test_config : M TestConfig :=
  fun _ w => (Ok (task_test_config w), w).

Definition get_metric_config : M (option MetricConfig) :=
  fun _ w => (Ok (task_metric_config w), w).

Definition set_test_config (tc : TestConfig) : M unit :=
  fun _ w => (Ok tt, {| tasks := tasks w; edges := edges w;
                        task_test_config := tc;
                        task_metric_config := task_metric_config w |}).

Definition set_metric_config (mc : option MetricConfig) : M unit :=
  fun _ w => (Ok tt, {| tasks := tasks w; edges := edges w;
                        task_test_config := task_test_config w;
                        task_metric_config := mc |}).

(** ** Airflow operations *)

(** Upstream and downstream relatives are sets: declaring a dependency a
    second time leaves the relation as it is.  The list keeps every
    declaration, in order; the relation is membership in the list. *)
Definition add_edges (es new : list (ref * ref)) : list (ref * ref) :=
  es ++ new.

(** Calling a decorated task, [f.override(...)(...)], with the keywords of
    the override, the positional and the keyword arguments.  The new
    task joins the current group and gets the producers of its [XComArg]
    arguments as upstream tasks; the call returns the task's [XComArg]. *)
Definition call (f : callee) (ov : list (string * arg)) (args : list arg)
    (kwargs : list (string * arg)) : M ref :=
  fun c w =>
    let me := Fresh (length (tasks w)) in
    let t := {| t_callee := f; t_override := ov; t_args := args;
                t_kwargs := kwargs; t_groups := c |} in
    let ups := flat_map arg_refs args ++ flat_map arg_refs (map snd kwargs) in
    (Ok me,
     {| tasks := tasks w ++ [t];
        edges := add_edges (edges w) (map (fun u => (u, me)) ups);
        task_test_config := task_test_config w;
        task_metric_config := task_metric_config w |}).

(** What stands on either side of [>>]. *)
Inductive dagnode :=
| NXCom (r : ref)                  (* an XComArg, or a helper's node *)
| NGroup (lo hi : nat)             (* a TaskGroup: tasks Fresh lo .. hi-1 *)
| NTuple (l : list ref).           (* a tuple of XComArgs *)

Definition members (n : dagnode) : list ref :=
  match n with
  | NXCom r => [r]
  | NGroup lo hi => map Fresh (seq lo (hi - lo))
  | NTuple l => l
  end.

Definition mem (r : ref) (l : list ref) : bool := existsb (ref_eqb r) l.

(** [TaskGroup.get_roots]: the tasks of the group with no upstream task
    inside the group; [get_leaves]: those with no downstream task inside. *)
Definition roots (es : list (ref * ref)) (n : dagnode) : list ref :=
  match n with
  | NGroup _ _ =>
      filter (fun r => negb (existsb (fun e => ref_eqb (snd e) r
                                               && mem (fst e) (members n)) es))
             (members n)
  | _ => members n
  end.

Definition leaves (es : list (ref * ref)) (n : dagnode) : list ref :=
  match n with
  | NGroup _ _ =>
      filter (fun r => negb (existsb (fun e => ref_eqb (fst e) r
                                               && mem (snd e) (members n)) es))
             (members n)
  | _ => members n
  end.

(** [a >> b]: every leaf of [a] becomes upstream of every root of [b]; the
    value of the expression is [b]. *)
Definition rshift (a b : dagnode) : M dagnode :=
  fun _ w =>
    let new := flat_map (fun u => map (fun d => (u, d)) (roots (edges w) b))
                        (leaves (edges w) a) in
    (Ok b,
     {| tasks := tasks w; edges := add_edges (edges w) new;
        task_test_config := task_test_config w;
        task_metric_config := task_metric_config w |}).

Notation "a >> b" := (rshift a b) (at level 40, no associativity) : task_scope.

(** [with TaskGroup(group_id=g, prefix_group_id=p) as group: body].  The
    group's tasks are those created while the block runs. *)
Definition with_TaskGroup {A} (g : string) (p : bool) (body : M A)
    : M (dagnode * A) :=
  fun c w =>
    let lo := length (tasks w) in
    match body ({| group_id := g; prefix_group_id := p |} :: c) w with
    | (Ok a, w') => (Ok (NGroup lo (length (tasks w')), a), w')
    | (Raise e, w') => (Raise e, w')
    end.

(** [with group: body] for a group object made by the caller. *)
Definition with_group {A} (g : group_entry) (body : M A) : M A :=
  fun c w => body (g :: c) w.

(** ** Helpers for Python expressions *)

(** [s.startswith(p)]. *)
Definition startswith (s p : string) : bool := String.prefix p s.

(** [s[:-2]]: the string without its last two characters. *)
Definition drop_last2 (s : string) : string :=
  String.substring 0 (String.length s - 2) s.

(** [metric_config.SshEnvVars.GCS_OUTPUT.name]: the name of an enum member
    is its identifier. *)
Definition GCS_OUTPUT : string := "GCS_OUTPUT".

(** An [Optional] task reference as an argument. *)
Definition opt_xcom (o : option ref) : arg :=
  match o with
  | Some r => AXCom r
  | None => ANone
  end.

(** [xpk.MAIN_BRANCH] is declared in [xlml.utils.xpk]; callers of the model
    pass the branch explicitly. *)

(** ** [BaseTask] *)

Module BaseTask.
Section Quarantine.

(** [QuarantineTests.is_quarantined], of [dags.common.quarantined_tests]. *)
Variable is_quarantined : string -> bool.

(** The abstract method [run] of the task at hand. *)
Variable run : M dagnode.

Definition run_with_quarantine (quarantine_task_group : group_entry)
    : M dagnode :=
  cfg <- get_test_config ;;
  let test_name := benchmark_id cfg in
  if is_quarantined test_name then
    with_group quarantine_task_group run
  else
    run.

End Quarantine.
End BaseTask.

(** ** [run_queued_resource_test] *)

Definition run_queued_resource_test
    (task_gcp_config : GCPConfig)
    (tpu_create_timeout : timedelta)
    (tpu_name_env_var : bool)
    (all_workers : bool) : M dagnode :=
  cfg <- get_test_config ;;
  '(test, _) <- with_TaskGroup (benchmark_id cfg) true (
    '(provision, (ssh_keys, output_location, queued_resource_name)) <-
      with_TaskGroup "provision" true (
        '(_, (tpu_name, ssh_keys, output_location)) <-
          with_TaskGroup "initialize" true (
            tpu_name <- call generate_tpu_name []
              [AStr (benchmark_id cfg); ABool tpu_name_env_var] [] ;;
            ssh_keys <- call generate_ssh_keys [] [] [] ;;
            output_location <- call generate_gcs_folder_location []
              [AStr (gcs_subfolder cfg); AStr (benchmark_id cfg)] [] ;;
            ret (tpu_name, ssh_keys, output_location)) ;;
        (* returns (queued_resource_op, queued_resource_name) *)
        queued_resource <- call create_queued_resource []
          [AXCom tpu_name; AGcp task_gcp_config; AXCom ssh_keys;
           ATimedelta tpu_create_timeout; AObject The_task_test_config] [] ;;
        let queued_resource_op := NXCom queued_resource in
        let queued_resource_name := queued_resource in
        setup <- call ssh_tpu [("task_id", AStr "setup")]
          [AXCom queued_resource_name; AStr (setup_script cfg); AXCom ssh_keys;
           ABool (if startswith (test_name cfg) "tf_" then true
                  else all_workers)] [] ;;
        queued_resource_op >> NXCom setup ;;
        ret (ssh_keys, output_location, queued_resource_name)) ;;
    run_model <- call ssh_tpu
      [("task_id", AStr "run_model");
       ("execution_timeout", ATimedelta (timeout cfg));
       ("owner", AStr (task_owner cfg))]
      [AXCom queued_resource_name; AStr (test_script cfg); AXCom ssh_keys;
       ABool all_workers]
      [("env", ADict [(GCS_OUTPUT, output_location)])] ;;
    '(post_process, _) <- with_TaskGroup "post_process" true (
      process_id <- call generate_process_id [("retries", AInt 0)] [] [] ;;
      call process_metrics [("retries", AInt 0)]
        [AXCom process_id; AObject The_task_test_config;
         AObject The_task_metric_config; AGcp task_gcp_config]
        [("folder_location", AXCom output_location)]) ;;
    clean_up <- call delete_queued_resource [("group_id", AStr "clean_up")]
      [AXCom queued_resource_name] [] ;;
    x <- provision >> NXCom run_model ;;
    x <- x >> post_process ;;
    x >> NXCom clean_up) ;;
  ret test.

(** ** [XpkTask] *)

Module XpkTask.

Record t := {
  task_gcp_config : GCPConfig;
  workload_provision_timeout : timedelta
}.

Definition launch_workload (self : t) (workload_id gcs_path : ref)
    (use_vertex_tensorboard use_pathways : bool) (ramdisk_directory : string)
    (mtc_enabled : bool) (xpk_branch : string) : M dagnode :=
  '(group, _) <- with_TaskGroup "launch_workload" true (
    cfg <- get_test_config ;;
    run_workload <- call run_workload [("owner", AStr (task_owner cfg))] []
      [("task_id", AStr "run_workload");
       ("cluster_project", AStr (project_name (task_gcp_config self)));
       ("zone", AStr (zone (task_gcp_config self)));
       ("cluster_name", AStr (cluster_name cfg));
       ("benchmark_id", AStr (benchmark_id cfg));
       ("workload_id", AXCom workload_id);
       ("gcs_path", AXCom gcs_path);
       ("docker_image", AStr (docker_image cfg));
       ("accelerator_type", AStr (name (accelerator cfg)));
       ("run_cmds", AStr (test_script cfg));
       ("num_slices", AInt (num_slices cfg));
       ("use_vertex_tensorboard", ABool use_vertex_tensorboard);
       ("use_pathways", ABool use_pathways);
       ("ramdisk_directory", AStr ramdisk_directory);
       ("mtc_enabled", ABool mtc_enabled);
       ("xpk_branch", AStr xpk_branch)] ;;
    wait_for_workload_start <- call wait_for_workload_start
      [("timeout", ATimedelta (workload_provision_timeout self))] []
      [("workload_id", AXCom workload_id);
       ("project_id", AStr (project_name (task_gcp_config self)));
       ("region", AStr (drop_last2 (zone (task_gcp_config self))));
       ("cluster_name", AStr (cluster_name cfg))] ;;
    NXCom run_workload >> NXCom wait_for_workload_start) ;;
  ret group.

Definition run_model (self : t) (gcs_location : option ref)
    (use_vertex_tensorboard use_pathways : bool) (ramdisk_directory : string)
    (mtc_enabled : bool) (xpk_branch : string) : M (dagnode * ref) :=
  with_TaskGroup "run_model" true (
    cfg <- get_test_config ;;
    workload_id <- call generate_workload_id [] [AStr (benchmark_id cfg)] [] ;;
    gcs_path <-
      match gcs_location with
      | Some g => ret g
      | None => call generate_gcs_folder_location []
                  [AStr (gcs_subfolder cfg); AStr (benchmark_id cfg)] []
      end ;;
    launch_workload <- launch_workload self workload_id gcs_path
      use_vertex_tensorboard use_pathways ramdisk_directory mtc_enabled
      xpk_branch ;;
    wait_for_workload_completion <- call wait_for_workload_completion
      [("timeout", AInt (int_total_seconds (timeout cfg)))] []
      [("workload_id", AXCom workload_id);
       ("project_id", AStr (project_name (task_gcp_config self)));
       ("region", AStr (drop_last2 (zone (task_gcp_config self))));
       ("cluster_name", AStr (cluster_name cfg))] ;;
    clean_up_workload <- call clean_up_workload [] []
      [("workload_id", AXCom workload_id);
       ("project_id", AStr (project_name (task_gcp_config self)));
       ("zone", AStr (zone (task_gcp_config self)));
       ("cluster_name", AStr (cluster_name cfg))] ;;
    x <- NTuple [workload_id; gcs_path] >> launch_workload ;;
    x <- x >> NXCom wait_for_workload_completion ;;
    x >> NXCom clean_up_workload ;;
    ret gcs_path).

Definition set_profile_metrics (m : MetricConfig) (p : ProfileConfig)
    (v : ref) : MetricConfig :=
  {| tensorboard_summary := tensorboard_summary m;
     profile := Some {| profile_file_location := profile_file_location p;
                        metrics := Some v |};
     use_runtime_generated_gcs_folder := use_runtime_generated_gcs_folder m |}.

Definition post_process (self : t) (result_location : option ref)
    : M dagnode :=
  '(group, _) <- with_TaskGroup "post_process" true (
    process_id <- call generate_process_id [("retries", AInt 0)] [] [] ;;
    post_process_metrics <- call process_metrics [("retries", AInt 0)]
      [AXCom process_id; AObject The_task_test_config;
       AObject The_task_metric_config; AGcp (task_gcp_config self)]
      [("folder_location", opt_xcom result_location)] ;;
    mc <- get_metric_config ;;
    (* if self.task_metric_config and self.task_metric_config.profile *)
    match mc with
    | Some m =>
        match profile m with
        | Some p =>
            profile_metrics <- call xplane_to_metrics [("retries", AInt 0)]
              [ALoc (profile_file_location p)] [] ;;
            set_metric_config
              (Some (set_profile_metrics m p profile_metrics)) ;;
            x <- NXCom process_id >> NXCom profile_metrics ;;
            x >> NXCom post_process_metrics
        | None => NXCom process_id >> NXCom post_process_metrics
        end
    | None => NXCom process_id >> NXCom post_process_metrics
    end) ;;
  ret group.

Definition run (self : t) (gcs_location : option ref)
    (use_vertex_tensorboard use_pathways skip_post_process : bool)
    (ramdisk_directory : string) (mtc_enabled : bool) (xpk_branch : string)
    : M dagnode :=
  cfg <- get_test_config ;;
  '(group, _) <- with_TaskGroup (benchmark_id cfg) true (
    '(run_model, gcs_path) <- run_model self gcs_location
      use_vertex_tensorboard use_pathways ramdisk_directory mtc_enabled
      xpk_branch ;;
    if negb skip_post_process then
      post <- post_process self (Some gcs_path) ;;
      run_model >> post ;;
      ret tt
    else
      ret tt) ;;
  ret group.

Definition set_run_model_cmds (cfg : TestConfig) (cmds : list cmd)
    : TestConfig :=
  {| benchmark_id := benchmark_id cfg; test_name := test_name cfg;
     gcs_subfolder := gcs_subfolder cfg; setup_script := setup_script cfg;
     test_script := test_script cfg; timeout := timeout cfg;
     task_owner := task_owner cfg; run_model_cmds := cmds;
     cluster_name := cluster_name cfg; docker_image := docker_image cfg;
     accelerator := accelerator cfg; num_slices := num_slices cfg;
     num_hosts := num_hosts cfg |}.

Definition set_tb_file_location (m : MetricConfig) (l : loc) : MetricConfig :=
  {| tensorboard_summary := Some {| summary_file_location := l |};
     profile := profile m;
     use_runtime_generated_gcs_folder := use_runtime_generated_gcs_folder m |}.

Definition set_profile_file_location (m : MetricConfig) (p : ProfileConfig)
    (l : loc) : MetricConfig :=
  {| tensorboard_summary := tensorboard_summary m;
     profile := Some {| profile_file_location := l; metrics := metrics p |};
     use_runtime_generated_gcs_folder := use_runtime_generated_gcs_folder m |}.

Definition run_with_run_name_generation (self : t) (use_pathways : bool)
    (xpk_branch run_name_env : string)
    (nested_run_name_in_tb_file_location : bool) : M dagnode :=
  cfg <- get_test_config ;;
  '(group, _) <- with_TaskGroup (benchmark_id cfg) true (
    run_name <- call generate_run_name [] [AStr (benchmark_id cfg)] [] ;;
    mc <- get_metric_config ;;
    m <- match mc with
         | Some m => ret m
         | None => raise (AttributeError
             "'NoneType' object has no attribute 'tensorboard_summary'")
         end ;;
    summary <- match tensorboard_summary m with
               | Some s => ret s
               | None => raise (AttributeError
                   "'NoneType' object has no attribute 'file_location'")
               end ;;
    tb_file_location <- call generate_tb_file_location []
      [AXCom run_name; ALoc (summary_file_location summary);
       ABool nested_run_name_in_tb_file_location] [] ;;
    (* Set run_name in run_model_cmds *)
    cfg <- get_test_config ;;
    let new_run_model_cmds :=
      [CmdExport run_name_env run_name] ++ run_model_cmds cfg in
    set_test_config (set_run_model_cmds cfg new_run_model_cmds) ;;
    (* Update tensorboard file location *)
    let m := set_tb_file_location m (LocXCom tb_file_location) in
    set_metric_config (Some m) ;;
    (* Update profile file location *)
    match profile m with
    | Some p =>
        profile_location <- call generate_profile_file_location []
          [AXCom run_name; ALoc (profile_file_location p)] [] ;;
        set_metric_config
          (Some (set_profile_file_location m p (LocXCom profile_location))) ;;
        '(run_model, gcs_path) <- run_model self None false use_pathways ""
          false xpk_branch ;;
        x <- NXCom run_name >> NTuple [tb_file_location; profile_location] ;;
        x <- x >> run_model ;;
        post <- post_process self (Some gcs_path) ;;
        x >> post
    | None =>
        '(run_model, gcs_path) <- run_model self None false use_pathways ""
          false xpk_branch ;;
        x <- NXCom run_name >> NXCom tb_file_location ;;
        x <- x >> run_model ;;
        post <- post_process self (Some gcs_path) ;;
        x >> post
    end) ;;
  ret group.

Section Quarantine.
Variable is_quarantined : string -> bool.

Definition run_with_name_gen_and_quarantine (self : t)
    (quarantine_task_group : group_entry) (use_pathways : bool)
    (xpk_branch run_name_env : string)
    (nested_run_name_in_tb_file_location : bool) : M dagnode :=
  cfg <- get_test_config ;;
  let test_name := benchmark_id cfg in
  if is_quarantined test_name then
    with_group quarantine_task_group
      (run_with_run_name_generation self use_pathways xpk_branch run_name_env
         nested_run_name_in_tb_file_location)
  else
    run_with_run_name_generation self use_pathways xpk_branch run_name_env
      nested_run_name_in_tb_file_location.

End Quarantine.
End XpkTask.

(** ** [GpuCreateResourceTask] *)

Module GpuCreateResourceTask.

Record t := {
  image_project : string;
  image_family : string;
  task_gcp_config : GCPConfig;
  gpu_create_timeout : timedelta;
  install_nvidia_drivers : bool;
  existing_instance_name : option string;
  reservation : bool
}.

Definition opt_str (o : option string) : arg :=
  match o with
  | Some s => AStr s
  | None => ANone
  end.

Definition provision_via_existing_instance (self : t)
    : M (dagnode * (ref * ref * ref)) :=
  with_TaskGroup "provision" true (
    cfg <- get_test_config ;;
    ssh_keys <- call generate_ssh_keys [] [] [] ;;
    ip_address <- call get_existing_resource [] []
      [("instance_name", opt_str (existing_instance_name self));
       ("ssh_keys", AXCom ssh_keys);
       ("gcp", AGcp (task_gcp_config self))] ;;
    gcs_location <- call generate_gcs_folder_location []
      [AStr (gcs_subfolder cfg); AStr (benchmark_id cfg)] [] ;;
    ret (ip_address, ssh_keys, gcs_location)).

Definition provision (self : t) : M (dagnode * (ref * ref * ref * ref)) :=
  with_TaskGroup "provision" true (
    cfg <- get_test_config ;;
    '(_, (gpu_name, ssh_keys, gcs_location)) <-
      with_TaskGroup "initialize" true (
        gpu_name <- call generate_gpu_name [] [] [] ;;
        ssh_keys <- call generate_ssh_keys [] [] [] ;;
        gcs_location <- call generate_gcs_folder_location []
          [AStr (gcs_subfolder cfg); AStr (benchmark_id cfg)] [] ;;
        ret (gpu_name, ssh_keys, gcs_location)) ;;
    ip_address <- call create_resource []
      [AXCom gpu_name; AStr (image_project self); AStr (image_family self);
       AAccelerator (accelerator cfg); AGcp (task_gcp_config self);
       AXCom ssh_keys]
      [("timeout", ATimedelta (gpu_create_timeout self));
       ("install_nvidia_drivers", ABool (install_nvidia_drivers self));
       ("reservation", ABool (reservation self))] ;;
    setup <- call ssh_host [("task_id", AStr "setup")]
      [AXCom ip_address; AStr (setup_script cfg); AXCom ssh_keys] [] ;;
    NXCom ip_address >> NXCom setup ;;
    ret (ip_address, gpu_name, ssh_keys, gcs_location)).

Definition run_model (self : t) (resource ssh_keys : ref) (env : arg)
    : M dagnode :=
  cfg <- get_test_config ;;
  r <- call ssh_host
    [("task_id", AStr "run_model");
     ("execution_timeout", ATimedelta (timeout cfg));
     ("owner", AStr (task_owner cfg))]
    [AXCom resource; AStr (test_script cfg); AXCom ssh_keys; env] [] ;;
  ret (NXCom r).

Definition post_process (self : t) (result_location : option ref)
    : M dagnode :=
  '(group, _) <- with_TaskGroup "post_process" true (
    process_id <- call generate_process_id [("retries", AInt 0)] [] [] ;;
    call process_metrics [("retries", AInt 0)]
      [AXCom process_id; AObject The_task_test_config;
       AObject The_task_metric_config; AGcp (task_gcp_config self)]
      [("folder_location", opt_xcom result_location)]) ;;
  ret group.

Definition clean_up (self : t) (resource : ref) (project_id zone : string)
    : M dagnode :=
  r <- call delete_resource [("group_id", AStr "clean_up")]
    [AXCom resource; AStr project_id; AStr zone] [] ;;
  ret (NXCom r).

Definition clean_up_existing_instance (self : t) (ssh_keys : ref)
    : M dagnode :=
  r <- call clean_up_ssh_keys [] []
    [("instance_name", opt_str (existing_instance_name self));
     ("ssh_keys", AXCom ssh_keys);
     ("gcp", AGcp (task_gcp_config self))] ;;
  ret (NXCom r).

(** The [env_variable] of [run] and [run_with_existing_instance]. *)
Definition env_variable (mc : option MetricConfig) (gcs_location : ref) : arg :=
  match mc with
  | Some m =>
      if use_runtime_generated_gcs_folder m
      then ADict [(GCS_OUTPUT, gcs_location)]
      else ANone
  | None => ANone
  end.

Definition run_with_existing_instance (self : t) : M dagnode :=
  cfg <- get_test_config ;;
  '(group, _) <- with_TaskGroup (benchmark_id cfg) true (
    '(provision, (ip_address, ssh_keys, gcs_location)) <-
      provision_via_existing_instance self ;;
    mc <- get_metric_config ;;
    let env_variable := env_variable mc gcs_location in
    post_process <- post_process self (Some gcs_location) ;;
    run_model <- run_model self ip_address ssh_keys env_variable ;;
    clean_up <- clean_up_existing_instance self ssh_keys ;;
    x <- provision >> run_model ;;
    x <- x >> post_process ;;
    x >> clean_up) ;;
  ret group.

Definition run (self : t) : M dagnode :=
  match existing_instance_name self with
  | Some _ => run_with_existing_instance self
  | None =>
      cfg <- get_test_config ;;
      '(group, _) <- with_TaskGroup (benchmark_id cfg) true (
        '(provision, (ip_address, instance_name, ssh_keys, gcs_location)) <-
          provision self ;;
        mc <- get_metric_config ;;
        let env_variable := env_variable mc gcs_location in
        run_model <- run_model self ip_address ssh_keys env_variable ;;
        post_process <- post_process self (Some gcs_location) ;;
        clean_up <- clean_up self instance_name
          (project_name (task_gcp_config self))
          (zone (task_gcp_config self)) ;;
        x <- provision >> run_model ;;
        x <- x >> post_process ;;
        x >> clean_up) ;;
      ret group
  end.

End GpuCreateResourceTask.

(** ** [GpuGkeTask] *)

Module GpuGkeTask.

Record t := {
  task_gcp_config : GCPConfig;
  cluster_name : string;
  job_create_timeout : timedelta
}.

Section Shlex.

(** [shlex.split] of the Python library: the tokens of a command line, or
    [None] where it raises [ValueError] (an unclosed quotation, a dangling
    escape). *)
Variable shlex_split : string -> option (list string).

Definition field_ref (path : string) : json :=
  JDict [("fieldRef", JDict [("fieldPath", JStr path)])].

(** The dict literal of [_get_job_manifest], given the two token lists; the
    entries are in the order of the source. *)
Definition job_manifest (cfg : TestConfig) (command args : list string)
    : json :=
  let accelerator := accelerator cfg in
  JDict [
    ("apiVersion", JStr "batch/v1");
    ("kind", JStr "Job");
    ("metadata", JDict [
      ("generateName", JStr (test_name cfg));
      ("labels", JDict [
        ("accelerator", JStr (name accelerator));
        ("benchmarkId", JStr (benchmark_id cfg))])]);
    ("spec", JDict [
      ("activeDeadlineSeconds",
        JInt (if Z.eqb (int_total_seconds (timeout cfg)) 0 then 3600
              else int_total_seconds (timeout cfg)));
      ("backoffLimit", JInt 0);
      ("completionMode", JStr "Indexed");
      ("completions", JInt (num_hosts cfg));
      ("parallelism", JInt (num_hosts cfg));
      ("template", JDict [
        ("metadata", JDict [
          ("labels", JDict [("headless-svc", JStr "true")])]);
        ("spec", JDict [
          ("subdomain", JStr "headless-svc");
          ("nodeSelector", JDict [
            ("cloud.google.com/gke-accelerator",
              JStr (accelerator_type accelerator))]);
          ("restartPolicy", JStr "Never");
          ("containers", JList [
            JDict [
              ("name", JStr "main");
              ("image", JStr (docker_image cfg));
              ("imagePullPolicy", JStr "Always");
              ("command", JList (map JStr command));
              ("args", JList (map JStr args));
              ("resources", JDict [
                ("limits", JDict [
                  ("nvidia.com/gpu", JInt (count accelerator))])]);
              ("env", JList [
                JDict [("name", JStr "POD_NAME");
                       ("valueFrom", field_ref "metadata.name")];
                JDict [("name", JStr "POD_NAMESPACE");
                       ("valueFrom", field_ref "metadata.namespace")];
                JDict [("name", JStr "JOB_NAME");
                       ("valueFrom",
                         field_ref "metadata.labels['job-name']")]]);
              ("volumeMounts", JList [
                JDict [("mountPath", JStr "/dev/shm");
                       ("name", JStr "dshm");
                       ("readOnly", JBool false)]])]]);
          ("volumes", JList [
            JDict [("emptyDir", JDict [("medium", JStr "Memory")]);
                   ("name", JStr "dshm")]])])])])].

Definition _get_job_manifest (self : t) : M json :=
  cfg <- get_test_config ;;
  match shlex_split (setup_script cfg) with
  | None => raise ValueError
  | Some command =>
      match shlex_split (test_script cfg) with
      | None => raise ValueError
      | Some args => ret (job_manifest cfg command args)
      end
  end.

Definition post_process (self : t) (result_location : option ref)
    : M dagnode :=
  '(group, _) <- with_TaskGroup "post_process" true (
    process_id <- call generate_process_id [("retries", AInt 0)] [] [] ;;
    call process_metrics [("retries", AInt 0)]
      [AXCom process_id; AObject The_task_test_config;
       AObject The_task_metric_config; AGcp (task_gcp_config self)]
      [("folder_location", opt_xcom result_location)]) ;;
  ret group.

Definition run (self : t) : M dagnode :=
  cfg <- get_test_config ;;
  '(group, _) <- with_TaskGroup (benchmark_id cfg) true (
    gcs_location <- call generate_gcs_folder_location []
      [AStr (gcs_subfolder cfg); AStr (benchmark_id cfg)] [] ;;
    job_body <- _get_job_manifest self ;;
    gke_run <- call run_job [("group_id", AStr "run_model")]
      [AJson job_body; AGcp (task_gcp_config self); AStr (cluster_name self);
       ATimedelta (job_create_timeout self); AXCom gcs_location] [] ;;
    post_process <- post_process self (Some gcs_location) ;;
    x <- NXCom gcs_location >> NXCom gke_run ;;
    x >> post_process) ;;
  ret group.

End Shlex.
End GpuGkeTask.

(** * Reading a composed pipeline *)

(** ** Running order

    [path es u v]: task [v] is downstream of task [u], directly or through
    other tasks, so [v] runs only after [u]. *)
Inductive path (es : list (ref * ref)) : ref -> ref -> Prop :=
| path_edge u v : In (u, v) es -> path es u v
| path_step u m v : In (u, m) es -> path es m v -> path es u v.

(** Paths of at most [n] edges, as a function. *)
Fixpoint reach (n : nat) (es : list (ref * ref)) (u v : ref) : bool :=
  match n with
  | O => false
  | S n' =>
      existsb (fun e => if ref_eqb (fst e) u
                        then if ref_eqb (snd e) v then true
                             else reach n' es (snd e) v
                        else false) es
  end.

(** ** The pipeline and its enclosing groups

    The groups a composing call is made in show in the [t_groups] of the
    tasks it creates, below the groups the call opens itself.  [place c w]
    puts the fragment [w] inside the groups [c]; [local c w] cuts the groups
    of each task down to those opened by the call. *)
Definition place_task (c : list group_entry) (t : task) : task :=
  {| t_callee := t_callee t; t_override := t_override t; t_args := t_args t;
     t_kwargs := t_kwargs t; t_groups := t_groups t ++ c |}.

Definition place (c : list group_entry) (w : world) : world :=
  {| tasks := map (place_task c) (tasks w); edges := edges w;
     task_test_config := task_test_config w;
     task_metric_config := task_metric_config w |}.

Definition placed {A} (c : list group_entry) (x : result A * world)
    : result A * world :=
  (fst x, place c (snd x)).

Definition local_task (c : list group_entry) (t : task) : task :=
  {| t_callee := t_callee t; t_override := t_override t; t_args := t_args t;
     t_kwargs := t_kwargs t;
     t_groups := firstn (length (t_groups t) - length c) (t_groups t) |}.

Definition local (c : list group_entry) (w : world) : world :=
  {| tasks := map (local_task c) (tasks w); edges := edges w;
     task_test_config := task_test_config w;
     task_metric_config := task_metric_config w |}.

(** [composes m tc mc c Q]: called inside the groups [c] with the
    configuration objects [tc] and [mc], [m] returns a DAG node, and the
    pipeline it has composed satisfies [Q]. *)
Definition composes (m : M dagnode) (tc : TestConfig)
    (mc : option MetricConfig) (c : list group_entry) (Q : world -> Prop)
    : Prop :=
  exists g w, m c (init tc mc) = (Ok g, w) /\ Q (local c w).

(** The configuration objects a caller hands over can only mention tasks
    made before the call. *)
Definition loc_prior (l : loc) : bool :=
  match l with
  | LocStr _ => true
  | LocXCom (Prior _) => true
  | LocXCom (Fresh _) => false
  end.

Definition metric_prior (mc : option MetricConfig) : bool :=
  match mc with
  | None => true
  | Some m =>
      match tensorboard_summary m with
      | Some s => loc_prior (summary_file_location s)
      | None => true
      end
      && match profile m with
         | Some p => loc_prior (profile_file_location p)
         | None => true
         end
  end.

(** ** Stages

    The outermost group a composing call opens is the pipeline; the stage of
    a task is read off the child of the pipeline group that holds the task
    (or is the task).  [Prepare] is for the names and locations generated
    ahead of the stages. *)
Inductive stage := Prepare | Provision | Run | PostProcess | Cleanup.

Definition stage_rank (s : stage) : nat :=
  match s with
  | Prepare => 0
  | Provision => 1
  | Run => 2
  | PostProcess => 3
  | Cleanup => 4
  end.

Definition stage_eqb (a b : stage) : bool :=
  Nat.eqb (stage_rank a) (stage_rank b).

(** The ids from the pipeline group down to the task. *)
Definition id_path (t : task) : list string :=
  rev (t_label t :: map group_id (t_groups t)).

Definition stage_of_unit (u : string) : stage :=
  if String.eqb u "provision" then Provision
  else if String.eqb u "run_model" then Run
  else if String.eqb u "post_process" then PostProcess
  else if String.eqb u "clean_up" then Cleanup
  else if String.eqb u "clean_up_ssh_keys" then Cleanup
  else Prepare.

Definition stage_of (t : task) : option stage :=
  match id_path t with
  | _ :: u :: _ => Some (stage_of_unit u)
  | _ => None
  end.

Definition in_stage (s : stage) (t : task) : bool :=
  match stage_of t with
  | Some s' => stage_eqb s s'
  | None => false
  end.

Definition task_at (w : world) (r : ref) : option task :=
  match r with
  | Fresh k => nth_error (tasks w) k
  | Prior _ => None
  end.

Definition stage_at (w : world) (r : ref) : option stage :=
  match task_at w r with
  | Some t => stage_of t
  | None => None
  end.

(** The tasks of the pipeline, with their references, that satisfy [p]. *)
Definition select (p : task -> bool) (w : world) : list (ref * task) :=
  filter (fun rt => p (snd rt))
         (combine (map Fresh (seq 0 (length (tasks w)))) (tasks w)).

Definition called (f : callee) (t : task) : bool := callee_eqb f (t_callee t).

Definition labelled (l : string) (t : task) : bool := String.eqb l (t_label t).

(** The stages that hold a task, in the order of the ranks. *)
Definition stages_present (w : world) : list stage :=
  filter (fun s => existsb (in_stage s) (tasks w))
         [Prepare; Provision; Run; PostProcess; Cleanup].

(** The stages of a pipeline run in order: every task has a stage; a task
    of a later stage is downstream of every task of an earlier stage; and
    no task is downstream of a task of a later stage. *)
Definition in_stage_order (w : world) : Prop :=
  (forall r t, task_at w r = Some t -> stage_of t <> None)
  /\ (forall u v su sv,
        stage_at w u = Some su -> stage_at w v = Some sv ->
        stage_rank su < stage_rank sv -> path (edges w) u v)
  /\ (forall u v su sv,
        stage_at w u = Some su -> stage_at w v = Some sv ->
        path (edges w) u v -> stage_rank su <= stage_rank sv).

(** The same, as a check on the list of the tasks' stages. *)
Definition pot (sts : list (option stage)) (r : ref) : nat :=
  match r with
  | Fresh k => match nth k sts None with
               | Some s => stage_rank s
               | None => 0
               end
  | Prior _ => 0
  end.

Definition check_order (sts : list (option stage)) (es : list (ref * ref))
    : bool :=
  let n := length sts in
  forallb (fun o => match o with Some _ => true | None => false end) sts
  && forallb (fun i =>
       forallb (fun j =>
         if Nat.ltb (pot sts (Fresh i)) (pot sts (Fresh j))
         then reach n es (Fresh i) (Fresh j) else true) (seq 0 n)) (seq 0 n)
  && forallb (fun e => Nat.leb (pot sts (fst e)) (pot sts (snd e))) es.

(** * General facts *)

Lemma ref_eqb_eq (a b : ref) : ref_eqb a b = true <-> a = b.
Proof.
  destruct a as [x|x], b as [y|y]; simpl; split; intro H;
    try discriminate; try (apply Nat.eqb_eq in H; congruence);
    try (injection H as ->; apply Nat.eqb_refl).
Qed.

Lemma reach_sound (n : nat) (es : list (ref * ref)) :
  forall u v, reach n es u v = true -> path es u v.
Proof.
  induction n as [|n IH]; intros u v H; simpl in H; [discriminate|].
  apply existsb_exists in H. destruct H as [[a b] [Hin H]]. simpl in H.
  destruct (ref_eqb a u) eqn:Ha; [|discriminate].
  apply ref_eqb_eq in Ha. subst a.
  destruct (ref_eqb b v) eqn:Hb.
  - apply ref_eqb_eq in Hb. subst b. now apply path_edge.
  - apply path_step with (m := b); [assumption|]. now apply IH.
Qed.

(** Along a path, a quantity that no edge decreases does not decrease. *)
Lemma path_monotone (f : ref -> nat) (es : list (ref * ref)) :
  (forall e, In e es -> f (fst e) <= f (snd e)) ->
  forall u v, path es u v -> f u <= f v.
Proof.
  intros Hes u v Hp.
  induction Hp as [u v Hin | u m v Hin _ IH].
  - exact (Hes _ Hin).
  - specialize (Hes _ Hin). simpl in Hes. lia.
Qed.

Lemma local_place_task (c : list group_entry) (t : task) :
  local_task c (place_task c t) = t.
Proof.
  destruct t as [f ov args kw gs]. unfold local_task, place_task. simpl.
  f_equal. rewrite length_app, Nat.add_sub.
  rewrite firstn_app, Nat.sub_diag, firstn_all. simpl. apply app_nil_r.
Qed.

Lemma local_place (c : list group_entry) (w : world) :
  local c (place c w) = w.
Proof.
  destruct w as [ts es tc mc]. unfold local, place. simpl. f_equal.
  rewrite map_map. rewrite <- (map_id ts) at 2.
  apply map_ext. intro t. apply local_place_task.
Qed.

Lemma stage_at_pot (w : world) (r : ref) (s : stage) :
  stage_at w r = Some s ->
  pot (map stage_of (tasks w)) r = stage_rank s
  /\ exists k, r = Fresh k /\ k < length (tasks w).
Proof.
  unfold stage_at, task_at. destruct r as [k|i]; [|discriminate].
  destruct (nth_error (tasks w) k) as [t|] eqn:E; [|discriminate].
  intro Hs. split.
  - simpl. apply (map_nth_error stage_of) in E.
    apply (nth_error_nth _ _ None) in E. rewrite E, Hs. reflexivity.
  - exists k. split; [reflexivity|]. apply nth_error_Some. congruence.
Qed.

Lemma check_order_sound (w : world) :
  check_order (map stage_of (tasks w)) (edges w) = true ->
  in_stage_order w.
Proof.
  unfold check_order. rewrite length_map.
  intro H. apply andb_true_iff in H. destruct H as [H H3].
  apply andb_true_iff in H. destruct H as [H1 H2].
  rewrite forallb_forall in H1, H2, H3.
  repeat split.
  - intros r t Ht Hn. destruct r as [k|i]; simpl in Ht; [|discriminate].
    apply nth_error_In in Ht.
    specialize (H1 (stage_of t) (in_map stage_of _ _ Ht)).
    rewrite Hn in H1. discriminate.
  - intros u v su sv Hu Hv Hlt.
    apply stage_at_pot in Hu. destruct Hu as [Pu [i [-> Hi]]].
    apply stage_at_pot in Hv. destruct Hv as [Pv [j [-> Hj]]].
    assert (Ii : In i (seq 0 (length (tasks w)))) by (apply in_seq; lia).
    assert (Ij : In j (seq 0 (length (tasks w)))) by (apply in_seq; lia).
    specialize (H2 i Ii). rewrite forallb_forall in H2.
    specialize (H2 j Ij). rewrite Pu, Pv in H2.
    apply Nat.ltb_lt in Hlt. rewrite Hlt in H2.
    now apply reach_sound in H2.
  - intros u v su sv Hu Hv Hp.
    apply stage_at_pot in Hu. destruct Hu as [Pu _].
    apply stage_at_pot in Hv. destruct Hv as [Pv _].
    rewrite <- Pu, <- Pv.
    apply path_monotone with (es := edges w); [|assumption].
    intros e He. apply Nat.leb_le. now apply H3.
Qed.

(** ** Selecting tasks *)

Lemma in_numbered (t : task) :
  forall ts start k,
    nth_error ts k = Some t ->
    In (Fresh (start + k), t)
       (combine (map Fresh (seq start (length ts))) ts).
Proof.
  induction ts as [|t0 ts IH]; intros start k H.
  - destruct k; discriminate.
  - destruct k as [|k]; simpl in *.
    + injection H as ->. left. now rewrite Nat.add_0_r.
    + right. rewrite <- Nat.add_succ_comm. now apply IH.
Qed.

Lemma task_at_select (p : task -> bool) (w : world) r t :
  task_at w r = Some t -> p t = true -> In (r, t) (select p w).
Proof.
  intros Ht Hp. destruct r as [k|i]; [|discriminate]. simpl in Ht.
  unfold select. apply filter_In. split; [|assumption].
  exact (in_numbered t (tasks w) 0 k Ht).
Qed.

Lemma select_forall (p : task -> bool) (f : ref -> task -> bool) w :
  forallb (fun rt => f (fst rt) (snd rt)) (select p w) = true ->
  forall r t, task_at w r = Some t -> p t = true -> f r t = true.
Proof.
  intros H r t Ht Hp. rewrite forallb_forall in H.
  exact (H (r, t) (task_at_select p w r t Ht Hp)).
Qed.

Lemma stage_at_in_stage (w : world) r s :
  stage_at w r = Some s ->
  exists t, task_at w r = Some t /\ in_stage s t = true.
Proof.
  unfold stage_at, in_stage. destruct (task_at w r) as [t|]; [|discriminate].
  intro H. exists t. rewrite H. split; [reflexivity|].
  unfold stage_eqb. apply Nat.eqb_refl.
Qed.

Lemma stage_forall (s : stage) (f : ref -> bool) w :
  forallb (fun rt => f (fst rt)) (select (in_stage s) w) = true ->
  forall u, stage_at w u = Some s -> f u = true.
Proof.
  intros H u Hu. apply stage_at_in_stage in Hu. destruct Hu as [t [Ht Hs]].
  exact (select_forall (in_stage s) (fun r _ => f r) w H u t Ht Hs).
Qed.

(** ** Every composing call composes the same pipeline in any group

    [placeable m]: run inside further groups [c], on a fragment placed in
    them, [m] does what it does outside of them, placed in [c].  It holds of
    each Airflow operation and is kept by sequencing, hence holds of every
    composing function. *)
Definition placeable {A} (m : M A) : Prop :=
  forall c0 c w, m (c0 ++ c) (place c w) = placed c (m c0 w).

Lemma placeable_ret {A} (a : A) : placeable (ret a).
Proof. intros c0 c w. reflexivity. Qed.

Lemma placeable_raise {A} (e : exn) : placeable (@raise A e).
Proof. intros c0 c w. reflexivity. Qed.

Lemma placeable_bind {A B} (m : M A) (k : A -> M B) :
  placeable m -> (forall a, placeable (k a)) -> placeable (bind m k).
Proof.
  intros Hm Hk c0 c w. unfold bind. rewrite Hm. unfold placed.
  destruct (m c0 w) as [[a|e] w']; simpl; [apply Hk | reflexivity].
Qed.

Lemma placeable_get_test_config : placeable get_test_config.
Proof. intros c0 c w. reflexivity. Qed.

Lemma placeable_get_metric_config : placeable get_metric_config.
Proof. intros c0 c w. reflexivity. Qed.

Lemma placeable_set_test_config tc : placeable (set_test_config tc).
Proof. intros c0 c w. reflexivity. Qed.

Lemma placeable_set_metric_config mc : placeable (set_metric_config mc).
Proof. intros c0 c w. reflexivity. Qed.

Lemma placeable_call f ov args kwargs : placeable (call f ov args kwargs).
Proof.
  intros c0 c w. unfold call, placed, place. simpl.
  rewrite length_map, (map_app (place_task c)). reflexivity.
Qed.

Lemma placeable_rshift a b : placeable (rshift a b).
Proof. intros c0 c w. reflexivity. Qed.

Lemma placeable_with_TaskGroup {A} g p (body : M A) :
  placeable body -> placeable (with_TaskGroup g p body).
Proof.
  intros H c0 c w. unfold with_TaskGroup.
  specialize (H ({| group_id := g; prefix_group_id := p |} :: c0) c w).
  simpl in H. rewrite H. unfold placed, place.
  destruct (body _ w) as [[a|e] w']; simpl; rewrite ?length_map; reflexivity.
Qed.

Lemma placeable_with_group {A} g (body : M A) :
  placeable body -> placeable (with_group g body).
Proof.
  intros H c0 c w. unfold with_group. exact (H (g :: c0) c w).
Qed.

Ltac placeable_step :=
  lazymatch goal with
  | |- placeable (bind _ _) => apply placeable_bind; [|intros ?; cbv beta]
  | |- placeable (ret _) => apply placeable_ret
  | |- placeable (raise _) => apply placeable_raise
  | |- placeable (call _ _ _ _) => apply placeable_call
  | |- placeable (rshift _ _) => apply placeable_rshift
  | |- placeable get_test_config => apply placeable_get_test_config
  | |- placeable get_metric_config => apply placeable_get_metric_config
  | |- placeable (set_test_config _) => apply placeable_set_test_config
  | |- placeable (set_metric_config _) => apply placeable_set_metric_config
  | |- placeable (with_TaskGroup _ _ _) => apply placeable_with_TaskGroup
  | |- placeable (with_group _ _) => apply placeable_with_group
  | |- placeable (match ?x with _ => _ end) => destruct x
  | |- placeable (let _ := _ in _) => cbv zeta
  | |- _ => solve [auto]
  end.

Ltac placeable := repeat placeable_step.

Lemma placeable_run_queued_resource_test gcp tmo env_var all_workers :
  placeable (run_queued_resource_test gcp tmo env_var all_workers).
Proof. unfold run_queued_resource_test. placeable. Qed.

Lemma placeable_xpk_run_model self g tb pw rd mtc br :
  placeable (XpkTask.run_model self g tb pw rd mtc br).
Proof. unfold XpkTask.run_model, XpkTask.launch_workload. placeable. Qed.

Lemma placeable_xpk_post_process self l :
  placeable (XpkTask.post_process self l).
Proof. unfold XpkTask.post_process. placeable. Qed.

Lemma placeable_xpk_run self g tb pw skip rd mtc br :
  placeable (XpkTask.run self g tb pw skip rd mtc br).
Proof.
  pose proof placeable_xpk_run_model. pose proof placeable_xpk_post_process.
  unfold XpkTask.run. placeable.
Qed.

Lemma placeable_xpk_run_with_run_name_generation self pw br env nested :
  placeable (XpkTask.run_with_run_name_generation self pw br env nested).
Proof.
  pose proof placeable_xpk_run_model. pose proof placeable_xpk_post_process.
  unfold XpkTask.run_with_run_name_generation. placeable.
Qed.

Lemma placeable_gpu_run self : placeable (GpuCreateResourceTask.run self).
Proof.
  unfold GpuCreateResourceTask.run,
    GpuCreateResourceTask.run_with_existing_instance,
    GpuCreateResourceTask.provision,
    GpuCreateResourceTask.provision_via_existing_instance,
    GpuCreateResourceTask.run_model, GpuCreateResourceTask.post_process,
    GpuCreateResourceTask.clean_up,
    GpuCreateResourceTask.clean_up_existing_instance.
  placeable.
Qed.

Lemma placeable_gke_run shlex self : placeable (GpuGkeTask.run shlex self).
Proof.
  unfold GpuGkeTask.run, GpuGkeTask._get_job_manifest,
    GpuGkeTask.post_process.
  placeable.
Qed.

(** A call that composes the same pipeline wherever it is made is judged
    on the pipeline it composes at the top level. *)
Lemma composes_intro (m : M dagnode) tc mc c (Q : world -> Prop) g w :
  placeable m ->
  m [] (init tc mc) = (Ok g, w) ->
  Q w ->
  composes m tc mc c Q.
Proof.
  intros Hp Hg HQ. exists g, (place c w). split.
  - change (m ([] ++ c) (place c (init tc mc)) = (Ok g, place c w)).
    rewrite Hp, Hg. reflexivity.
  - now rewrite local_place.
Qed.

(** Case analysis on a metric configuration that mentions prior tasks
    only: no metric configuration; or the possible tensorboard and profile
    locations. *)
Ltac metric_cases mc H :=
  destruct mc as [[[[[?s|[?k|?i]]]|] [[[?s|[?k|?i]] ?m]|] ?u]|];
  try discriminate H; clear H.

(** Unfolds a [composes] goal to the pipeline composed at the top level. *)
Ltac pipeline L :=
  eapply composes_intro; [apply L | vm_compute; reflexivity | ].

Ltac staged :=
  split; [vm_compute; reflexivity
         | apply check_order_sound; vm_compute; reflexivity].

(** * The claims *)

(** ** C1: the order of the stages *)

(** C1.  For every backend variant, the pipeline returned by the composing
    operation chains its stages in the order Provision, Run, Post-Process,
    Cleanup: [run_queued_resource_test] and [GpuCreateResourceTask.run] (with
    a new or an existing instance) compose exactly these four stages, every
    task of a later stage downstream of every task of an earlier one, and no
    task downstream of a later stage.  [GpuGkeTask.run] composes the
    collapsed variant: the artifact location is generated, one [run_job]
    node provisions and runs, post-processing follows, and there is no
    cleanup stage.  (When [shlex.split] rejects a script, [GpuGkeTask.run]
    raises [ValueError] and returns no pipeline.) *)
Theorem C1_stage_order :
  (forall gcp tmo env_var all_workers tc mc c,
     composes (run_queued_resource_test gcp tmo env_var all_workers) tc mc c
       (fun w => stages_present w = [Provision; Run; PostProcess; Cleanup]
                 /\ in_stage_order w))
  /\ (forall self tc mc c,
        composes (GpuCreateResourceTask.run self) tc mc c
          (fun w => stages_present w = [Provision; Run; PostProcess; Cleanup]
                    /\ in_stage_order w))
  /\ (forall shlex self tc mc c,
        match shlex (setup_script tc), shlex (test_script tc) with
        | Some _, Some _ =>
            composes (GpuGkeTask.run shlex self) tc mc c
              (fun w => stages_present w = [Prepare; Run; PostProcess]
                        /\ map (fun rt => t_callee (snd rt))
                               (select (in_stage Run) w) = [run_job]
                        /\ in_stage_order w)
        | _, _ =>
            exists w, GpuGkeTask.run shlex self c (init tc mc)
                      = (Raise ValueError, w)
        end).
Proof.
  split; [|split].
  - intros. pipeline placeable_run_queued_resource_test. staged.
  - intros self tc mc c.
    destruct self as [ip fam gcp tmo drv [e|] res], mc as [[ts p [|]]|];
      (pipeline placeable_gpu_run; staged).
  - intros shlex self tc mc c.
    destruct tc as [bid tn sub setup test tmo own cmds cl img acc ns nh].
    cbn [setup_script test_script].
    destruct (shlex setup) as [command|] eqn:E1;
      [destruct (shlex test) as [args|] eqn:E2|].
    + eapply composes_intro; [apply placeable_gke_run | | ].
      * vm_compute. rewrite E1, E2. reflexivity.
      * split; [vm_compute; reflexivity|staged].
    + eexists. vm_compute. rewrite E1, E2. reflexivity.
    + eexists. vm_compute. rewrite E1. reflexivity.
Qed.

(** ** Example inputs, after the tests of dags/multipod/legacy.py *)

Definition example_test_config : TestConfig :=
  {| benchmark_id := "maxtext-decode-stable-v4-8";
     test_name := "maxtext-decode-stable";
     gcs_subfolder := "maxtext";
     setup_script := "echo setup";
     test_script := "bash end_to_end/tpu/test_decode.sh";
     timeout := minutes 60;
     task_owner := "jon";
     run_model_cmds := [Cmd "bash end_to_end/tpu/test_decode.sh"];
     cluster_name := "v4-8-cluster";
     docker_image := "maxtext_jax_stable";
     accelerator := {| name := "v4-8"; accelerator_type := "tpu-v4";
                       count := 8 |};
     num_slices := 1;
     num_hosts := 4 |}.

Definition example_gcp_config : GCPConfig :=
  {| project_name := "cloud-ml-auto-solutions"; zone := "us-central2-b" |}.

Definition example_metric_config : MetricConfig :=
  {| tensorboard_summary :=
       Some {| summary_file_location := LocStr "gs://maxtext-xlml/tb" |};
     profile := None;
     use_runtime_generated_gcs_folder := true |}.

Definition example_xpk_task : XpkTask.t :=
  {| XpkTask.task_gcp_config := example_gcp_config;
     XpkTask.workload_provision_timeout := minutes 300 |}.

Definition example_gpu_task : GpuCreateResourceTask.t :=
  {| GpuCreateResourceTask.image_project := "deeplearning-platform-release";
     GpuCreateResourceTask.image_family := "common-cu121";
     GpuCreateResourceTask.task_gcp_config := example_gcp_config;
     GpuCreateResourceTask.gpu_create_timeout := minutes 60;
     GpuCreateResourceTask.install_nvidia_drivers := false;
     GpuCreateResourceTask.existing_instance_name := None;
     GpuCreateResourceTask.reservation := false |}.

(** ** C2: workload deletion and post-processing in the XPK pipeline *)

(** The claim as stated: the workload-deletion step is downstream of the
    post-processing tasks. *)
Definition post_processing_before_deletion (w : world) : Prop :=
  forall p d,
    stage_at w p = Some PostProcess ->
    In d (map fst (select (called clean_up_workload) w)) ->
    path (edges w) p d.

(** What the code composes: [clean_up_workload] is one task of the
    [run_model] group and the last one there, and every post-process task
    is downstream of it, none upstream. *)
Definition deletion_before_post_processing (w : world) : Prop :=
  exists d,
    map fst (select (called clean_up_workload) w) = [d]
    /\ stage_at w d = Some Run
    /\ (forall u, stage_at w u = Some Run -> u <> d -> path (edges w) u d)
    /\ select (in_stage PostProcess) w <> []
    /\ (forall v, stage_at w v = Some PostProcess ->
          path (edges w) d v /\ ~ path (edges w) v d).

Lemma deletion_before_post_processing_check (w : world) (d : ref) (n : nat) :
  map fst (select (called clean_up_workload) w) = [d] ->
  stage_at w d = Some Run ->
  forallb (fun rt => if ref_eqb (fst rt) d then true
                     else reach n (edges w) (fst rt) d)
          (select (in_stage Run) w) = true ->
  existsb (in_stage PostProcess) (tasks w) = true ->
  check_order (map stage_of (tasks w)) (edges w) = true ->
  deletion_before_post_processing w.
Proof.
  intros Hd Hs Hrun Hpost Hord. exists d.
  apply check_order_sound in Hord. destruct Hord as [_ [Hfwd Hback]].
  split; [assumption|]. split; [assumption|]. split; [|split].
  - intros u Hu Hne.
    pose proof (stage_forall Run
                  (fun r => if ref_eqb r d then true
                            else reach n (edges w) r d) w Hrun u Hu) as H.
    simpl in H.
    destruct (ref_eqb u d) eqn:E.
    + apply ref_eqb_eq in E. contradiction.
    + now apply reach_sound in H.
  - intro Hnil. apply existsb_exists in Hpost.
    destruct Hpost as [t [Hin Ht]].
    apply In_nth_error in Hin. destruct Hin as [k Hk].
    pose proof (task_at_select (in_stage PostProcess) w (Fresh k) t Hk Ht) as H.
    rewrite Hnil in H. exact H.
  - intros v Hv. split.
    + apply (Hfwd d v Run PostProcess Hs Hv). simpl. lia.
    + intro Hp. specialize (Hback v d PostProcess Run Hv Hs Hp).
      simpl in Hback. lia.
Qed.

(** C2 (as stated, refuted).  In the pipeline that [XpkTask.run] composes
    for the example test, the workload-deletion step is not downstream of
    the post-processing tasks. *)
Lemma C2_deletion_not_after_post_processing :
  ~ post_processing_before_deletion
      (snd (XpkTask.run example_xpk_task None false false false "" false
              "main" [] (init example_test_config None))).
Proof.
  intro H.
  set (w := snd (XpkTask.run example_xpk_task None false false false ""
                   false "main" [] (init example_test_config None))) in *.
  assert (Hord : in_stage_order w)
    by (apply check_order_sound; vm_compute; reflexivity).
  destruct Hord as [_ [_ Hback]].
  assert (Hp : path (edges w) (Fresh 7) (Fresh 5)).
  { apply H; [vm_compute; reflexivity | vm_compute; left; reflexivity]. }
  assert (Hle : stage_rank PostProcess <= stage_rank Run).
  { apply (Hback (Fresh 7) (Fresh 5)); [vm_compute; reflexivity .. | exact Hp]. }
  simpl in Hle. lia.
Qed.

Ltac deletion_first :=
  eapply deletion_before_post_processing_check with (n := 16);
  vm_compute; reflexivity.

(** C2 (amended).  In every pipeline composed by [XpkTask.run] (when
    post-processing is not skipped) or by
    [XpkTask.run_with_run_name_generation], the workload-deletion step
    [clean_up_workload] is the last task of the [run_model] group, and
    post-processing comes strictly after it: every post-process task is
    downstream of the deletion step, and none is upstream of it. *)
Theorem C2_deletion_precedes_post_processing :
  forall self tc mc c,
    metric_prior mc = true ->
    (forall g tb pw rd mtc br,
       composes (XpkTask.run self (option_map Prior g) tb pw false rd mtc br)
         tc mc c deletion_before_post_processing)
    /\ (forall pw br env nested m s,
          mc = Some m -> tensorboard_summary m = Some s ->
          composes
            (XpkTask.run_with_run_name_generation self pw br env nested)
            tc mc c deletion_before_post_processing).
Proof.
  intros self tc mc c H. split.
  - intros g tb pw rd mtc br.
    metric_cases mc H; destruct g;
      (pipeline placeable_xpk_run; deletion_first).
  - intros pw br env nested m s Hm Hs.
    metric_cases mc H; try discriminate Hm; injection Hm as <-;
      simpl in Hs; try discriminate Hs;
      (pipeline placeable_xpk_run_with_run_name_generation; deletion_first).
Qed.

Lemma C2_deletion_precedes_post_processing_witness :
  composes
    (XpkTask.run_with_run_name_generation example_xpk_task false "main"
       "M_RUN_NAME" true)
    example_test_config (Some example_metric_config) []
    deletion_before_post_processing.
Proof.
  apply (proj2 (C2_deletion_precedes_post_processing example_xpk_task
                  example_test_config (Some example_metric_config) []
                  eq_refl)
           false "main" "M_RUN_NAME" true example_metric_config
           {| summary_file_location := LocStr "gs://maxtext-xlml/tb" |}
           eq_refl eq_refl).
Defined.

(** ** C3: quarantine *)

Lemma placeable_init {A} (m : M A) c tc mc :
  placeable m -> m c (init tc mc) = placed c (m [] (init tc mc)).
Proof. intro H. exact (H [] c (init tc mc)). Qed.

(** Whatever [run] is, [run_with_quarantine] composes what [run] composes,
    inside the quarantine group when the benchmark is quarantined. *)
Lemma run_with_quarantine_placed is_quarantined (run : M dagnode) q c tc mc :
  placeable run ->
  BaseTask.run_with_quarantine is_quarantined run q c (init tc mc)
  = placed (if is_quarantined (benchmark_id tc) then q :: c else c)
           (run [] (init tc mc)).
Proof.
  intro H. unfold BaseTask.run_with_quarantine, bind, get_test_config.
  cbn [init task_test_config].
  destruct (is_quarantined (benchmark_id tc)).
  - unfold with_group. now apply placeable_init.
  - now apply placeable_init.
Qed.

(** C3.  For every benchmark id, quarantined or not, [run_with_quarantine]
    (for each of the task classes) and [run_with_name_gen_and_quarantine]
    compose one and the same pipeline, the one that [run], respectively
    [run_with_run_name_generation], composes with the same arguments; the
    result, the tasks, their arguments, the dependencies and the writes to
    the configuration are the same, and only the enclosing groups differ:
    the quarantine group is added when the benchmark is quarantined. *)
Theorem C3_quarantine_invariance :
  forall (is_quarantined : string -> bool) (q : group_entry) tc mc c,
    let groups := if is_quarantined (benchmark_id tc) then q :: c else c in
    (forall self g tb pw skip rd mtc br,
       BaseTask.run_with_quarantine is_quarantined
         (XpkTask.run self g tb pw skip rd mtc br) q c (init tc mc)
       = placed groups
           (XpkTask.run self g tb pw skip rd mtc br [] (init tc mc)))
    /\ (forall self,
          BaseTask.run_with_quarantine is_quarantined
            (GpuCreateResourceTask.run self) q c (init tc mc)
          = placed groups (GpuCreateResourceTask.run self [] (init tc mc)))
    /\ (forall shlex self,
          BaseTask.run_with_quarantine is_quarantined
            (GpuGkeTask.run shlex self) q c (init tc mc)
          = placed groups (GpuGkeTask.run shlex self [] (init tc mc)))
    /\ (forall self pw br env nested,
          XpkTask.run_with_name_gen_and_quarantine is_quarantined self q pw
            br env nested c (init tc mc)
          = placed groups
              (XpkTask.run_with_run_name_generation self pw br env nested []
                 (init tc mc))).
Proof.
  intros is_quarantined q tc mc c groups. subst groups.
  split; [|split; [|split]]; intros.
  - apply run_with_quarantine_placed, placeable_xpk_run.
  - apply run_with_quarantine_placed, placeable_gpu_run.
  - apply run_with_quarantine_placed, placeable_gke_run.
  - unfold XpkTask.run_with_name_gen_and_quarantine, bind, get_test_config.
    cbn [init task_test_config].
    destruct (is_quarantined (benchmark_id tc)).
    + unfold with_group.
      apply placeable_init, placeable_xpk_run_with_run_name_generation.
    + apply placeable_init, placeable_xpk_run_with_run_name_generation.
Qed.

(** ** C4: the batch-job manifest *)

Inductive key := Key (k : string) | Idx (n : nat).

(** [j[k1][k2]...]: the value at a path of dict keys and list indices. *)
Fixpoint jget (path : list key) (j : json) : option json :=
  match path with
  | [] => Some j
  | Key k :: rest =>
      match j with
      | JDict kv => match assoc k kv with
                    | Some v => jget rest v
                    | None => None
                    end
      | _ => None
      end
  | Idx n :: rest =>
      match j with
      | JList l => match nth_error l n with
                   | Some v => jget rest v
                   | None => None
                   end
      | _ => None
      end
  end.


Definition container_path : list key :=
  [Key "spec"; Key "template"; Key "spec"; Key "containers"; Idx 0].


(** ** C5: writes to the test configuration *)

(** [keeps_test_config m]: whatever the state, [m] leaves
    [task_test_config] as it found it. *)
Definition keeps_test_config {A} (m : M A) : Prop :=
  forall c w, task_test_config (snd (m c w)) = task_test_config w.

Lemma keeps_ret {A} (a : A) : keeps_test_config (ret a).
Proof. intros c w. reflexivity. Qed.

Lemma keeps_raise {A} (e : exn) : keeps_test_config (@raise A e).
Proof. intros c w. reflexivity. Qed.

Lemma keeps_bind {A B} (m : M A) (k : A -> M B) :
  keeps_test_config m -> (forall a, keeps_test_config (k a)) ->
  keeps_test_config (bind m k).
Proof.
  intros Hm Hk c w. unfold bind. specialize (Hm c w).
  destruct (m c w) as [[a|e] w']; simpl in *.
  - now rewrite Hk.
  - assumption.
Qed.

Lemma keeps_get_test_config : keeps_test_config get_test_config.
Proof. intros c w. reflexivity. Qed.

Lemma keeps_get_metric_config : keeps_test_config get_metric_config.
Proof. intros c w. reflexivity. Qed.

Lemma keeps_set_metric_config mc : keeps_test_config (set_metric_config mc).
Proof. intros c w. reflexivity. Qed.

Lemma keeps_call f ov args kwargs : keeps_test_config (call f ov args kwargs).
Proof. intros c w. reflexivity. Qed.

Lemma keeps_rshift a b : keeps_test_config (rshift a b).
Proof. intros c w. reflexivity. Qed.

Lemma keeps_with_TaskGroup {A} g p (body : M A) :
  keeps_test_config body -> keeps_test_config (with_TaskGroup g p body).
Proof.
  intros H c w. unfold with_TaskGroup.
  specialize (H ({| group_id := g; prefix_group_id := p |} :: c) w).
  destruct (body _ w) as [[a|e] w']; assumption.
Qed.

Lemma keeps_with_group {A} g (body : M A) :
  keeps_test_config body -> keeps_test_config (with_group g body).
Proof. intros H c w. exact (H (g :: c) w). Qed.

Ltac keeps_step :=
  lazymatch goal with
  | |- keeps_test_config (bind _ _) =>
      apply keeps_bind; [|intros ?; cbv beta]
  | |- keeps_test_config (ret _) => apply keeps_ret
  | |- keeps_test_config (raise _) => apply keeps_raise
  | |- keeps_test_config (call _ _ _ _) => apply keeps_call
  | |- keeps_test_config (rshift _ _) => apply keeps_rshift
  | |- keeps_test_config get_test_config => apply keeps_get_test_config
  | |- keeps_test_config get_metric_config => apply keeps_get_metric_config
  | |- keeps_test_config (set_metric_config _) =>
      apply keeps_set_metric_config
  | |- keeps_test_config (with_TaskGroup _ _ _) => apply keeps_with_TaskGroup
  | |- keeps_test_config (with_group _ _) => apply keeps_with_group
  | |- keeps_test_config (match ?x with _ => _ end) => destruct x
  | |- keeps_test_config (let _ := _ in _) => cbv zeta
  | |- _ => solve [auto]
  end.

Ltac keeps := repeat keeps_step.

Lemma keeps_xpk_run_model self g tb pw rd mtc br :
  keeps_test_config (XpkTask.run_model self g tb pw rd mtc br).
Proof. unfold XpkTask.run_model, XpkTask.launch_workload. keeps. Qed.

Lemma keeps_xpk_post_process self l :
  keeps_test_config (XpkTask.post_process self l).
Proof. unfold XpkTask.post_process. keeps. Qed.

(** The claim as stated, for one composing call. *)
Definition test_config_untouched (m : M dagnode) (tc : TestConfig)
    (mc : option MetricConfig) : Prop :=
  task_test_config (snd (m [] (init tc mc))) = tc.

(** C5 (as stated, refuted).  [run_with_run_name_generation] writes to
    [task_test_config]: after the call on the example test, the
    configuration is not the one the call was given. *)
Lemma C5_run_name_generation_writes_test_config :
  ~ test_config_untouched
      (XpkTask.run_with_run_name_generation example_xpk_task false "main"
         "M_RUN_NAME" true)
      example_test_config (Some example_metric_config).
Proof.
  unfold test_config_untouched. vm_compute. intro H. discriminate H.
Qed.

(** C5 (amended).  [run_queued_resource_test], [XpkTask.run] (with its
    [run_model] and [post_process]), [GpuCreateResourceTask.run] and
    [GpuGkeTask.run] leave every field of [task_test_config] as it is, in
    any state and whether they return or raise.  One operation writes to
    it: [XpkTask.run_with_run_name_generation], once past the read of the
    tensorboard location, replaces [run_model_cmds] by the same commands
    behind an export of the generated run name, and changes no other
    field. *)
Theorem C5_test_config_writes :
  (forall gcp tmo env_var all_workers,
     keeps_test_config (run_queued_resource_test gcp tmo env_var all_workers))
  /\ (forall self g tb pw skip rd mtc br,
        keeps_test_config (XpkTask.run self g tb pw skip rd mtc br))
  /\ (forall self, keeps_test_config (GpuCreateResourceTask.run self))
  /\ (forall shlex self, keeps_test_config (GpuGkeTask.run shlex self))
  /\ (forall self pw br env nested tc mc c,
        task_test_config
          (snd (XpkTask.run_with_run_name_generation self pw br env nested c
                  (init tc mc)))
        = match mc with
          | Some {| tensorboard_summary := Some _ |} =>
              XpkTask.set_run_model_cmds tc
                (CmdExport env (Fresh 0) :: run_model_cmds tc)
          | _ => tc
          end).
Proof.
  pose proof keeps_xpk_run_model. pose proof keeps_xpk_post_process.
  split; [|split; [|split; [|split]]]; intros.
  - unfold run_queued_resource_test. keeps.
  - unfold XpkTask.run. keeps.
  - unfold GpuCreateResourceTask.run,
      GpuCreateResourceTask.run_with_existing_instance,
      GpuCreateResourceTask.provision,
      GpuCreateResourceTask.provision_via_existing_instance,
      GpuCreateResourceTask.run_model, GpuCreateResourceTask.post_process,
      GpuCreateResourceTask.clean_up,
      GpuCreateResourceTask.clean_up_existing_instance.
    keeps.
  - unfold GpuGkeTask.run, GpuGkeTask._get_job_manifest,
      GpuGkeTask.post_process.
    keeps.
  - destruct mc as [[[ts|] [p|] u]|]; lazy; reflexivity.
Qed.

(** ** C6: the post-process stage *)

Lemma composes_intro_fst (m : M dagnode) tc mc c (Q : world -> Prop) g :
  placeable m ->
  fst (m [] (init tc mc)) = Ok g ->
  Q (snd (m [] (init tc mc))) ->
  composes m tc mc c Q.
Proof.
  intros Hp Hg HQ. destruct (m [] (init tc mc)) as [r w] eqn:E.
  simpl in Hg, HQ. subst r. now apply (composes_intro m tc mc c Q g w).
Qed.

(** As [pipeline], but evaluating no more of the composed pipeline than
    the goal looks at. *)
Ltac pipeline_lazy L :=
  eapply composes_intro_fst; [apply L | lazy; reflexivity | ].






(** ** C7: the artifact location *)

(** The [env] of a runner task: a keyword of [ssh_tpu], the fourth
    positional argument of [ssh_host]. *)
Definition ssh_tpu_env (t : task) : option arg := assoc "env" (t_kwargs t).

Definition ssh_host_env (t : task) : option arg := nth_error (t_args t) 3.

(** One location is generated, in the Provision stage; the runner's [env]
    is [expected] of it; [process_metrics] gets it as [folder_location]. *)
Definition artifact_location_passed (env_of : task -> option arg)
    (expected : ref -> arg) (w : world) : Prop :=
  exists location,
    map fst (select (called generate_gcs_folder_location) w) = [location]
    /\ stage_at w location = Some Provision
    /\ map (fun rt => env_of (snd rt)) (select (in_stage Run) w)
       = [Some (expected location)]
    /\ map (fun rt => assoc "folder_location" (t_kwargs (snd rt)))
           (select (called process_metrics) w)
       = [Some (AXCom location)].

Definition as_GCS_OUTPUT (location : ref) : arg :=
  ADict [(GCS_OUTPUT, location)].

(** C7 (as stated, refuted).  Without a metric configuration,
    [GpuCreateResourceTask.run] hands its runner no [GCS_OUTPUT]. *)
Lemma C7_runner_without_GCS_OUTPUT :
  ~ artifact_location_passed ssh_host_env as_GCS_OUTPUT
      (snd (GpuCreateResourceTask.run example_gpu_task []
              (init example_test_config None))).
Proof.
  intros [location [H1 [_ [H3 _]]]].
  vm_compute in H1. injection H1 as <-.
  vm_compute in H3. discriminate H3.
Qed.

Ltac location_passed :=
  eexists; split; [vm_compute; reflexivity|];
  split; [vm_compute; reflexivity|];
  split; vm_compute; reflexivity.

(** C7 (amended).  In every pipeline of [run_queued_resource_test] the
    runner gets the artifact location generated in the initialize
    sub-phase of Provision as the one environment variable [GCS_OUTPUT],
    and [process_metrics] gets the same location as [folder_location].  In
    every pipeline of [GpuCreateResourceTask.run] (new or existing
    instance) [process_metrics] gets the location generated in Provision
    as [folder_location], and the runner gets it as [GCS_OUTPUT] exactly
    when a metric configuration is given and its
    [use_runtime_generated_gcs_folder] is set; otherwise the runner's [env]
    is [None]. *)
Theorem C7_artifact_location :
  (forall gcp tmo env_var all_workers tc mc c,
     composes (run_queued_resource_test gcp tmo env_var all_workers) tc mc c
       (artifact_location_passed ssh_tpu_env as_GCS_OUTPUT))
  /\ (forall self tc mc c,
        composes (GpuCreateResourceTask.run self) tc mc c
          (artifact_location_passed ssh_host_env
             (fun location =>
                match mc with
                | Some m => if use_runtime_generated_gcs_folder m
                            then as_GCS_OUTPUT location else ANone
                | None => ANone
                end))).
Proof.
  split.
  - intros. pipeline placeable_run_queued_resource_test. location_passed.
  - intros self tc mc c.
    destruct self as [ip fam gcp tmo drv [e|] res], mc as [[ts p [|]]|];
      (pipeline placeable_gpu_run; location_passed).
Qed.

(** ** C8: all workers *)

(** The [all_workers] argument of an [ssh_tpu] call, its fourth. *)
Definition all_workers_of (t : task) : option arg := nth_error (t_args t) 3.

Definition runs_on_all_workers (l : string) (w : world) : Prop :=
  map (fun rt => all_workers_of (snd rt)) (select (labelled l) w)
  = [Some (ABool true)].

Definition example_tf_test_config : TestConfig :=
  {| benchmark_id := "tf_keras_api-v4-32";
     test_name := "tf_keras_api";
     gcs_subfolder := "tensorflow";
     setup_script := "pip install tf-nightly";
     test_script := "python3 keras_api_test.py";
     timeout := minutes 60;
     task_owner := "erica";
     run_model_cmds := [];
     cluster_name := "";
     docker_image := "";
     accelerator := {| name := "v4-32"; accelerator_type := "tpu-v4";
                       count := 16 |};
     num_slices := 1;
     num_hosts := 4 |}.

(** C8 (as stated, refuted).  A test named "tf_keras_api", composed with
    [all_workers=False]: the [run_model] script does not run on all
    workers. *)
Lemma C8_tf_run_model_on_worker_0 :
  startswith (test_name example_tf_test_config) "tf_" = true
  /\ ~ runs_on_all_workers "run_model"
         (snd (run_queued_resource_test example_gcp_config (minutes 60)
                 false false [] (init example_tf_test_config None))).
Proof.
  split; [reflexivity|]. unfold runs_on_all_workers. vm_compute.
  intro H. discriminate H.
Qed.

(** C8 (amended).  In every pipeline of [run_queued_resource_test], the
    setup script runs on all workers when the test name begins with "tf_",
    whatever the caller's [all_workers], and as [all_workers] says
    otherwise; the [run_model] script runs as [all_workers] says, for every
    test name. *)
Theorem C8_all_workers :
  forall gcp tmo env_var all_workers tc mc c,
    composes (run_queued_resource_test gcp tmo env_var all_workers) tc mc c
      (fun w =>
         map (fun rt => all_workers_of (snd rt)) (select (labelled "setup") w)
         = [Some (ABool (startswith (test_name tc) "tf_" || all_workers))]
         /\ map (fun rt => all_workers_of (snd rt))
                (select (labelled "run_model") w)
            = [Some (ABool all_workers)]).
Proof.
  intros. pipeline placeable_run_queued_resource_test.
  split; vm_compute; reflexivity.
Qed.

(** ** C9: an existing instance *)

(** C9.  With [existing_instance_name] set, the pipeline of
    [GpuCreateResourceTask.run] has no task that names, creates or deletes
    a VM; Provision generates one pair of SSH keys and looks the named
    instance up with them; and the cleanup stage is the one call of
    [clean_up_ssh_keys], on the named instance, for exactly those keys. *)
Theorem C9_existing_instance :
  forall ip fam gcp tmo drv res instance tc mc c,
    composes
      (GpuCreateResourceTask.run
         {| GpuCreateResourceTask.image_project := ip;
            GpuCreateResourceTask.image_family := fam;
            GpuCreateResourceTask.task_gcp_config := gcp;
            GpuCreateResourceTask.gpu_create_timeout := tmo;
            GpuCreateResourceTask.install_nvidia_drivers := drv;
            GpuCreateResourceTask.existing_instance_name := Some instance;
            GpuCreateResourceTask.reservation := res |})
      tc mc c
      (fun w =>
         select (called generate_gpu_name) w = []
         /\ select (called create_resource) w = []
         /\ select (called delete_resource) w = []
         /\ exists ssh_keys,
              map fst (select (called generate_ssh_keys) w) = [ssh_keys]
              /\ stage_at w ssh_keys = Some Provision
              /\ map (fun rt => t_kwargs (snd rt))
                     (select (called get_existing_resource) w)
                 = [[("instance_name", AStr instance);
                     ("ssh_keys", AXCom ssh_keys); ("gcp", AGcp gcp)]]
              /\ map (fun rt => (t_callee (snd rt), t_args (snd rt),
                                 t_kwargs (snd rt)))
                     (select (in_stage Cleanup) w)
                 = [(clean_up_ssh_keys, [],
                     [("instance_name", AStr instance);
                      ("ssh_keys", AXCom ssh_keys); ("gcp", AGcp gcp)])]).
Proof.
  intros. destruct mc as [[ts p [|]]|];
    (pipeline placeable_gpu_run;
     split; [vm_compute; reflexivity|];
     split; [vm_compute; reflexivity|];
     split; [vm_compute; reflexivity|];
     eexists; split; [vm_compute; reflexivity|];
     split; [vm_compute; reflexivity|];
     split; vm_compute; reflexivity).
Qed.

(** ** C10: run-name generation needs a metric configuration *)

(** C10.  [run_with_run_name_generation] reads
    [task_metric_config.tensorboard_summary.file_location] unguarded: with
    no metric configuration, or with one that has no tensorboard summary,
    it raises [AttributeError], and so does
    [run_with_name_gen_and_quarantine], quarantined or not; with a metric
    configuration that has a tensorboard summary it returns its task group.
    [XpkTask.run] and [XpkTask.post_process] guard the case: without a
    metric configuration they return their task groups. *)
Theorem C10_metric_config_required :
  (forall self pw br env nested tc c,
     fst (XpkTask.run_with_run_name_generation self pw br env nested c
            (init tc None))
     = Raise (AttributeError
                "'NoneType' object has no attribute 'tensorboard_summary'"))
  /\ (forall self pw br env nested tc p u c,
        fst (XpkTask.run_with_run_name_generation self pw br env nested c
               (init tc (Some {| tensorboard_summary := None; profile := p;
                                 use_runtime_generated_gcs_folder := u |})))
        = Raise (AttributeError
                   "'NoneType' object has no attribute 'file_location'"))
  /\ (forall is_quarantined self q pw br env nested tc c,
        fst (XpkTask.run_with_name_gen_and_quarantine is_quarantined self q
               pw br env nested c (init tc None))
        = Raise (AttributeError
                   "'NoneType' object has no attribute 'tensorboard_summary'"))
  /\ (forall self pw br env nested tc s p u c,
        exists n,
          fst (XpkTask.run_with_run_name_generation self pw br env nested c
                 (init tc (Some {| tensorboard_summary := Some s;
                                   profile := p;
                                   use_runtime_generated_gcs_folder := u |})))
          = Ok (NGroup 0 n))
  /\ (forall self g tb pw skip rd mtc br tc c,
        exists n,
          fst (XpkTask.run self g tb pw skip rd mtc br c (init tc None))
          = Ok (NGroup 0 n))
  /\ (forall self location tc c,
        exists n,
          fst (XpkTask.post_process self location c (init tc None))
          = Ok (NGroup 0 n)).
Proof.
  split; [|split; [|split; [|split; [|split]]]]; intros.
  - lazy. reflexivity.
  - lazy. reflexivity.
  - unfold XpkTask.run_with_name_gen_and_quarantine, bind, get_test_config.
    cbn [init task_test_config].
    destruct (is_quarantined (benchmark_id tc)); lazy; reflexivity.
  - destruct p; eexists; lazy; reflexivity.
  - destruct g, skip; eexists; lazy; reflexivity.
  - eexists. lazy. reflexivity.
Qed.

(** * Further properties of the composing operations *)

(** ** Composing only adds to the DAG *)

(** [only_adds m]: whatever the state, [m] keeps the tasks and the
    dependencies that are there, in place, and puts its own behind them. *)
Definition only_adds {A} (m : M A) : Prop :=
  forall c w, exists ts es,
    tasks (snd (m c w)) = tasks w ++ ts
    /\ edges (snd (m c w)) = edges w ++ es.

Lemma only_adds_nothing {A} (m : M A) :
  (forall c w, tasks (snd (m c w)) = tasks w
               /\ edges (snd (m c w)) = edges w) ->
  only_adds m.
Proof.
  intros H c w. exists [], []. rewrite !app_nil_r. apply H.
Qed.

Lemma only_adds_ret {A} (a : A) : only_adds (ret a).
Proof. apply only_adds_nothing. intros c w. split; reflexivity. Qed.

Lemma only_adds_raise {A} (e : exn) : only_adds (@raise A e).
Proof. apply only_adds_nothing. intros c w. split; reflexivity. Qed.

Lemma only_adds_get_test_config : only_adds get_test_config.
Proof. apply only_adds_nothing. intros c w. split; reflexivity. Qed.

Lemma only_adds_get_metric_config : only_adds get_metric_config.
Proof. apply only_adds_nothing. intros c w. split; reflexivity. Qed.

Lemma only_adds_set_test_config tc : only_adds (set_test_config tc).
Proof. apply only_adds_nothing. intros c w. split; reflexivity. Qed.

Lemma only_adds_set_metric_config mc : only_adds (set_metric_config mc).
Proof. apply only_adds_nothing. intros c w. split; reflexivity. Qed.

Lemma only_adds_call f ov args kwargs : only_adds (call f ov args kwargs).
Proof. intros c w. unfold call, add_edges. simpl. eauto. Qed.

Lemma only_adds_rshift a b : only_adds (rshift a b).
Proof.
  intros c w. unfold rshift, add_edges. simpl. exists []. rewrite app_nil_r.
  eauto.
Qed.

Lemma only_adds_bind {A B} (m : M A) (k : A -> M B) :
  only_adds m -> (forall a, only_adds (k a)) -> only_adds (bind m k).
Proof.
  intros Hm Hk c w. unfold bind. destruct (Hm c w) as [ts [es [Ht He]]].
  destruct (m c w) as [[a|e] w']; simpl in *.
  - destruct (Hk a c w') as [ts' [es' [Ht' He']]].
    exists (ts ++ ts'), (es ++ es').
    rewrite Ht', He', Ht, He, !app_assoc. split; reflexivity.
  - eauto.
Qed.

Lemma only_adds_with_TaskGroup {A} g p (body : M A) :
  only_adds body -> only_adds (with_TaskGroup g p body).
Proof.
  intros H c w. unfold with_TaskGroup.
  specialize (H ({| group_id := g; prefix_group_id := p |} :: c) w).
  destruct (body _ w) as [[a|e] w']; exact H.
Qed.

Lemma only_adds_with_group {A} g (body : M A) :
  only_adds body -> only_adds (with_group g body).
Proof. intros H c w. exact (H (g :: c) w). Qed.

Ltac only_adds_step :=
  lazymatch goal with
  | |- only_adds (bind _ _) => apply only_adds_bind; [|intros ?; cbv beta]
  | |- only_adds (ret _) => apply only_adds_ret
  | |- only_adds (raise _) => apply only_adds_raise
  | |- only_adds (call _ _ _ _) => apply only_adds_call
  | |- only_adds (rshift _ _) => apply only_adds_rshift
  | |- only_adds get_test_config => apply only_adds_get_test_config
  | |- only_adds get_metric_config => apply only_adds_get_metric_config
  | |- only_adds (set_test_config _) => apply only_adds_set_test_config
  | |- only_adds (set_metric_config _) => apply only_adds_set_metric_config
  | |- only_adds (with_TaskGroup _ _ _) => apply only_adds_with_TaskGroup
  | |- only_adds (with_group _ _) => apply only_adds_with_group
  | |- only_adds (match ?x with _ => _ end) => destruct x
  | |- only_adds (let _ := _ in _) => cbv zeta
  | |- _ => solve [auto]
  end.

Ltac only_adds := repeat only_adds_step.

Lemma only_adds_xpk_run_model self g tb pw rd mtc br :
  only_adds (XpkTask.run_model self g tb pw rd mtc br).
Proof. unfold XpkTask.run_model, XpkTask.launch_workload. only_adds. Qed.

Lemma only_adds_xpk_post_process self l :
  only_adds (XpkTask.post_process self l).
Proof. unfold XpkTask.post_process. only_adds. Qed.

(** X1.  Composing a pipeline never removes, reorders or rewires what is
    already in the DAG: in any state, each composing operation, and
    [run_with_quarantine] over any [run] that does so, leaves the tasks
    and the dependencies it finds where they are and appends its own, also
    when it raises. *)
Theorem X1_composing_only_adds :
  (forall gcp tmo env_var all_workers,
     only_adds (run_queued_resource_test gcp tmo env_var all_workers))
  /\ (forall self g tb pw skip rd mtc br,
        only_adds (XpkTask.run self g tb pw skip rd mtc br))
  /\ (forall self pw br env nested,
        only_adds (XpkTask.run_with_run_name_generation self pw br env nested))
  /\ (forall self, only_adds (GpuCreateResourceTask.run self))
  /\ (forall shlex self, only_adds (GpuGkeTask.run shlex self))
  /\ (forall is_quarantined run q,
        only_adds run ->
        only_adds (BaseTask.run_with_quarantine is_quarantined run q)).
Proof.
  pose proof only_adds_xpk_run_model. pose proof only_adds_xpk_post_process.
  split; [|split; [|split; [|split; [|split]]]]; intros.
  - unfold run_queued_resource_test. only_adds.
  - unfold XpkTask.run. only_adds.
  - unfold XpkTask.run_with_run_name_generation. only_adds.
  - unfold GpuCreateResourceTask.run,
      GpuCreateResourceTask.run_with_existing_instance,
      GpuCreateResourceTask.provision,
      GpuCreateResourceTask.provision_via_existing_instance,
      GpuCreateResourceTask.run_model, GpuCreateResourceTask.post_process,
      GpuCreateResourceTask.clean_up,
      GpuCreateResourceTask.clean_up_existing_instance.
    only_adds.
  - unfold GpuGkeTask.run, GpuGkeTask._get_job_manifest,
      GpuGkeTask.post_process.
    only_adds.
  - unfold BaseTask.run_with_quarantine. only_adds.
Qed.

Lemma X1_composing_only_adds_witness :
  only_adds
    (BaseTask.run_with_quarantine (fun _ => true)
       (GpuCreateResourceTask.run example_gpu_task)
       {| group_id := "Quarantine"; prefix_group_id := false |}).
Proof.
  apply (proj2 (proj2 (proj2 (proj2 (proj2 X1_composing_only_adds))))).
  apply (proj1 (proj2 (proj2 (proj2 X1_composing_only_adds)))).
Defined.

(** ** Writes to the metric configuration *)

Definition keeps_metric_config {A} (m : M A) : Prop :=
  forall c w, task_metric_config (snd (m c w)) = task_metric_config w.

Lemma keeps_metric_ret {A} (a : A) : keeps_metric_config (ret a).
Proof. intros c w. reflexivity. Qed.

Lemma keeps_metric_raise {A} (e : exn) : keeps_metric_config (@raise A e).
Proof. intros c w. reflexivity. Qed.

Lemma keeps_metric_bind {A B} (m : M A) (k : A -> M B) :
  keeps_metric_config m -> (forall a, keeps_metric_config (k a)) ->
  keeps_metric_config (bind m k).
Proof.
  intros Hm Hk c w. unfold bind. specialize (Hm c w).
  destruct (m c w) as [[a|e] w']; simpl in *.
  - now rewrite Hk.
  - assumption.
Qed.

Lemma keeps_metric_get_test_config : keeps_metric_config get_test_config.
Proof. intros c w. reflexivity. Qed.

Lemma keeps_metric_get_metric_config : keeps_metric_config get_metric_config.
Proof. intros c w. reflexivity. Qed.

Lemma keeps_metric_call f ov args kwargs :
  keeps_metric_config (call f ov args kwargs).
Proof. intros c w. reflexivity. Qed.

Lemma keeps_metric_rshift a b : keeps_metric_config (rshift a b).
Proof. intros c w. reflexivity. Qed.

Lemma keeps_metric_with_TaskGroup {A} g p (body : M A) :
  keeps_metric_config body -> keeps_metric_config (with_TaskGroup g p body).
Proof.
  intros H c w. unfold with_TaskGroup.
  specialize (H ({| group_id := g; prefix_group_id := p |} :: c) w).
  destruct (body _ w) as [[a|e] w']; assumption.
Qed.

Ltac keeps_metric_step :=
  lazymatch goal with
  | |- keeps_metric_config (bind _ _) =>
      apply keeps_metric_bind; [|intros ?; cbv beta]
  | |- keeps_metric_config (ret _) => apply keeps_metric_ret
  | |- keeps_metric_config (raise _) => apply keeps_metric_raise
  | |- keeps_metric_config (call _ _ _ _) => apply keeps_metric_call
  | |- keeps_metric_config (rshift _ _) => apply keeps_metric_rshift
  | |- keeps_metric_config get_test_config =>
      apply keeps_metric_get_test_config
  | |- keeps_metric_config get_metric_config =>
      apply keeps_metric_get_metric_config
  | |- keeps_metric_config (with_TaskGroup _ _ _) =>
      apply keeps_metric_with_TaskGroup
  | |- keeps_metric_config (match ?x with _ => _ end) => destruct x
  | |- keeps_metric_config (let _ := _ in _) => cbv zeta
  | |- _ => solve [auto]
  end.

Ltac keeps_metric := repeat keeps_metric_step.

(** Two metric configurations that differ at most in [profile.metrics]. *)
Definition same_but_metrics (a b : option MetricConfig) : Prop :=
  match a, b with
  | None, None => True
  | Some m, Some m' =>
      tensorboard_summary m = tensorboard_summary m'
      /\ use_runtime_generated_gcs_folder m
         = use_runtime_generated_gcs_folder m'
      /\ match profile m, profile m' with
         | None, None => True
         | Some p, Some p' =>
             profile_file_location p = profile_file_location p'
         | _, _ => False
         end
  | _, _ => False
  end.

(** X2.  In any state, [run_queued_resource_test],
    [GpuCreateResourceTask.run], [GpuGkeTask.run] and [XpkTask.run_model]
    never write to [task_metric_config].  [XpkTask.post_process] writes one
    field and only when a profile is configured: [profile.metrics] becomes
    the [XComArg] of the [xplane_to_metrics] task, the third task it
    creates.  Hence [XpkTask.run] leaves the metric configuration as it
    is, up to [profile.metrics]. *)
Theorem X2_metric_config_writes :
  (forall gcp tmo env_var all_workers,
     keeps_metric_config
       (run_queued_resource_test gcp tmo env_var all_workers))
  /\ (forall self, keeps_metric_config (GpuCreateResourceTask.run self))
  /\ (forall shlex self, keeps_metric_config (GpuGkeTask.run shlex self))
  /\ (forall self g tb pw rd mtc br,
        keeps_metric_config (XpkTask.run_model self g tb pw rd mtc br))
  /\ (forall self location c w,
        task_metric_config (snd (XpkTask.post_process self location c w))
        = match task_metric_config w with
          | Some m =>
              match profile m with
              | Some p =>
                  Some (XpkTask.set_profile_metrics m p
                          (Fresh (length (tasks w) + 2)))
              | None => Some m
              end
          | None => None
          end)
  /\ (forall self g tb pw skip rd mtc br c w,
        same_but_metrics
          (task_metric_config w)
          (task_metric_config
             (snd (XpkTask.run self g tb pw skip rd mtc br c w)))).
Proof.
  split; [|split; [|split; [|split; [|split]]]]; intros.
  - unfold run_queued_resource_test. keeps_metric.
  - unfold GpuCreateResourceTask.run,
      GpuCreateResourceTask.run_with_existing_instance,
      GpuCreateResourceTask.provision,
      GpuCreateResourceTask.provision_via_existing_instance,
      GpuCreateResourceTask.run_model, GpuCreateResourceTask.post_process,
      GpuCreateResourceTask.clean_up,
      GpuCreateResourceTask.clean_up_existing_instance.
    keeps_metric.
  - unfold GpuGkeTask.run, GpuGkeTask._get_job_manifest,
      GpuGkeTask.post_process.
    keeps_metric.
  - unfold XpkTask.run_model, XpkTask.launch_workload. keeps_metric.
  - destruct w as [ts es tc [[s [p|] u]|]]; cbn; try reflexivity.
    unfold XpkTask.set_profile_metrics. cbn.
    rewrite !length_app. cbn. rewrite <- Nat.add_assoc. reflexivity.
  - destruct w as [ts es tc [[s [p|] u]|]], g, skip; lazy; auto.
Qed.

(** ** Generated names and locations in the XPK pipelines *)

(** X3.  [run_with_run_name_generation] resolves the metric paths from the
    generated run name, in place: [generate_tb_file_location] gets the run
    name, the configured tensorboard location and the nesting flag, and its
    [XComArg] overwrites [tensorboard_summary.file_location]; with a
    profile configured, [generate_profile_file_location] gets the run name
    and the configured profile location, its [XComArg] overwrites
    [profile.file_location], and [xplane_to_metrics] converts that
    generated location, its [XComArg] ending up in [profile.metrics];
    without a profile neither task exists.  [process_metrics] is handed
    the metric configuration object itself. *)
Theorem X3_run_name_resolves_metric_paths :
  forall self pw br env nested tc s p u c,
    let w := snd (XpkTask.run_with_run_name_generation self pw br env nested
                    c (init tc (Some {| tensorboard_summary := Some s;
                                        profile := p;
                                        use_runtime_generated_gcs_folder := u
                                     |}))) in
    exists run_name tb,
      map fst (select (called generate_run_name) w) = [run_name]
      /\ map (fun rt => (fst rt, t_args (snd rt)))
             (select (called generate_tb_file_location) w)
         = [(tb, [AXCom run_name; ALoc (summary_file_location s);
                  ABool nested])]
      /\ map (fun rt => nth_error (t_args (snd rt)) 2)
             (select (called process_metrics) w)
         = [Some (AObject The_task_metric_config)]
      /\ match p with
         | Some p0 =>
             exists prof conv,
               map (fun rt => (fst rt, t_args (snd rt)))
                   (select (called generate_profile_file_location) w)
               = [(prof, [AXCom run_name; ALoc (profile_file_location p0)])]
               /\ map (fun rt => (fst rt, t_args (snd rt)))
                      (select (called xplane_to_metrics) w)
                  = [(conv, [ALoc (LocXCom prof)])]
               /\ task_metric_config w
                  = Some {| tensorboard_summary :=
                              Some {| summary_file_location := LocXCom tb |};
                            profile :=
                              Some {| profile_file_location := LocXCom prof;
                                      metrics := Some conv |};
                            use_runtime_generated_gcs_folder := u |}
         | None =>
             select (called generate_profile_file_location) w = []
             /\ select (called xplane_to_metrics) w = []
             /\ task_metric_config w
                = Some {| tensorboard_summary :=
                            Some {| summary_file_location := LocXCom tb |};
                          profile := None;
                          use_runtime_generated_gcs_folder := u |}
         end.
Proof.
  intros. subst w. destruct p as [p0|].
  - exists (Fresh 0), (Fresh 1).
    split; [lazy; reflexivity|]. split; [lazy; reflexivity|].
    split; [lazy; reflexivity|].
    exists (Fresh 2), (Fresh 11).
    split; [lazy; reflexivity|]. split; lazy; reflexivity.
  - exists (Fresh 0), (Fresh 1).
    split; [lazy; reflexivity|]. split; [lazy; reflexivity|].
    split; [lazy; reflexivity|].
    split; [lazy; reflexivity|]. split; lazy; reflexivity.
Qed.

(** The artifact location of an XPK pipeline: [location] is what
    [run_workload] gets as [gcs_path] and [process_metrics] as
    [folder_location]. *)
Definition xpk_artifact_location (location : ref) (w : world) : Prop :=
  map (fun rt => assoc "gcs_path" (t_kwargs (snd rt)))
      (select (called run_workload) w) = [Some (AXCom location)]
  /\ map (fun rt => assoc "folder_location" (t_kwargs (snd rt)))
         (select (called process_metrics) w) = [Some (AXCom location)].

(** X4.  [XpkTask.run] takes the artifact location it is given: with
    [gcs_location] it generates none, and the workload and the metric
    processing both get the caller's location.  Without [gcs_location] it
    generates one location, inside the [run_model] group, and both get
    that one. *)
Theorem X4_xpk_artifact_location :
  forall self tb pw rd mtc br tc mc c,
    (forall given,
       composes (XpkTask.run self (Some given) tb pw false rd mtc br) tc mc c
         (fun w => select (called generate_gcs_folder_location) w = []
                   /\ xpk_artifact_location given w))
    /\ composes (XpkTask.run self None tb pw false rd mtc br) tc mc c
         (fun w => exists location,
                     map (fun rt => (fst rt, stage_of (snd rt)))
                         (select (called generate_gcs_folder_location) w)
                     = [(location, Some Run)]
                     /\ xpk_artifact_location location w).
Proof.
  intros. split.
  - intro given. destruct mc as [[ts [pf|] u]|];
      (pipeline_lazy placeable_xpk_run;
       split; [lazy; reflexivity | split; lazy; reflexivity]).
  - destruct mc as [[ts [pf|] u]|];
      (pipeline_lazy placeable_xpk_run;
       eexists; split; [lazy; reflexivity | split; lazy; reflexivity]).
Qed.

(** ** Order inside the XPK pipelines *)

(** A declared dependency, as a function. *)
Definition depends (es : list (ref * ref)) (u v : ref) : bool :=
  existsb (fun e => if ref_eqb (fst e) u then ref_eqb (snd e) v else false) es.

Lemma depends_In es u v : depends es u v = true -> In (u, v) es.
Proof.
  unfold depends. intro H. apply existsb_exists in H.
  destruct H as [[a b] [Hin H]]. simpl in H.
  destruct (ref_eqb a u) eqn:Ha; [|discriminate].
  apply ref_eqb_eq in Ha. apply ref_eqb_eq in H. now subst.
Qed.

Ltac dependency := apply depends_In; vm_compute; reflexivity.

(** X5.  The XPK pipelines keep the stage order as well.  [XpkTask.run]
    composes the [run_model] group and then post-processing, or the
    [run_model] group alone with [skip_post_process];
    [run_with_run_name_generation] puts the generation of the run name and
    of the metric locations before both: every task of the [run_model]
    group is downstream of every generated name and location, and every
    post-process task downstream of every [run_model] task. *)
Theorem X5_xpk_stage_order :
  forall self tc mc c,
    metric_prior mc = true ->
    (forall g tb pw rd mtc br,
       composes (XpkTask.run self (option_map Prior g) tb pw false rd mtc br)
         tc mc c
         (fun w => stages_present w = [Run; PostProcess]
                   /\ in_stage_order w))
    /\ (forall g tb pw rd mtc br,
          composes (XpkTask.run self (option_map Prior g) tb pw true rd mtc br)
            tc mc c
            (fun w => stages_present w = [Run] /\ in_stage_order w))
    /\ (forall pw br env nested m s,
          mc = Some m -> tensorboard_summary m = Some s ->
          composes
            (XpkTask.run_with_run_name_generation self pw br env nested)
            tc mc c
            (fun w => stages_present w = [Prepare; Run; PostProcess]
                      /\ in_stage_order w)).
Proof.
  intros self tc mc c H. split; [|split].
  - intros. metric_cases mc H; destruct g;
      (pipeline placeable_xpk_run; staged).
  - intros. metric_cases mc H; destruct g;
      (pipeline placeable_xpk_run; staged).
  - intros pw br env nested m s Hm Hs.
    metric_cases mc H; try discriminate Hm; injection Hm as <-;
      simpl in Hs; try discriminate Hs;
      (pipeline placeable_xpk_run_with_run_name_generation; staged).
Qed.

Lemma X5_xpk_stage_order_witness :
  composes
    (XpkTask.run_with_run_name_generation example_xpk_task false "main"
       "M_RUN_NAME" true)
    example_test_config (Some example_metric_config) []
    (fun w => stages_present w = [Prepare; Run; PostProcess]
              /\ in_stage_order w).
Proof.
  apply (proj2 (proj2 (X5_xpk_stage_order example_xpk_task
                         example_test_config (Some example_metric_config) []
                         eq_refl))
           false "main" "M_RUN_NAME" true example_metric_config
           {| summary_file_location := LocStr "gs://maxtext-xlml/tb" |}
           eq_refl eq_refl).
Defined.

Definition workload_step (t : task) : bool :=
  called run_workload t || called wait_for_workload_start t
  || called wait_for_workload_completion t || called clean_up_workload t.

(** One workload id is generated; the workload is launched, waited for to
    start, waited for to complete and deleted, each step a direct
    dependency of the next, and all four steps name that one workload. *)
Definition workload_lifecycle (w : world) : Prop :=
  exists workload launch started completed deleted,
    map fst (select (called generate_workload_id) w) = [workload]
    /\ map (fun rt => (fst rt, t_callee (snd rt), 
                       assoc "workload_id" (t_kwargs (snd rt))))
           (select workload_step w)
       = [(launch, run_workload, Some (AXCom workload));
          (started, wait_for_workload_start, Some (AXCom workload));
          (completed, wait_for_workload_completion, Some (AXCom workload));
          (deleted, clean_up_workload, Some (AXCom workload))]
    /\ In (workload, launch) (edges w)
    /\ In (launch, started) (edges w)
    /\ In (started, completed) (edges w)
    /\ In (completed, deleted) (edges w).

Ltac lifecycle :=
  do 5 eexists;
  split; [vm_compute; reflexivity|];
  split; [vm_compute; reflexivity|];
  split; [dependency|]; split; [dependency|]; split; dependency.

(** The DAG node of the pair that [XpkTask.run_model] returns. *)
Definition xpk_run_model_node self g tb pw rd mtc br : M dagnode :=
  x <- XpkTask.run_model self g tb pw rd mtc br ;; ret (fst x).

(** X6.  [XpkTask.run_model] takes the workload through one life cycle on
    one generated workload id: launch, wait for the start, wait for the
    completion, delete, whether the artifact location is given or
    generated. *)
Theorem X6_workload_lifecycle :
  forall self g tb pw rd mtc br tc mc c,
    composes (xpk_run_model_node self (option_map Prior g) tb pw rd mtc br)
      tc mc c workload_lifecycle.
Proof.
  intros self g tb pw rd mtc br tc mc c.
  assert (P : placeable
                (xpk_run_model_node self (option_map Prior g) tb pw rd mtc br))
    by (pose proof placeable_xpk_run_model; unfold xpk_run_model_node;
        placeable).
  destruct g; (pipeline P; lifecycle).
Qed.

Definition profile_of (mc : option MetricConfig) : option ProfileConfig :=
  match mc with
  | Some m => profile m
  | None => None
  end.

(** X7.  [XpkTask.post_process] starts with the process id.  With a
    profile configured the conversion of the profile at the configured
    location sits between the process id and the metric processing, each a
    direct dependency of the next; without one there is no conversion and
    the metric processing depends on the process id alone. *)
Theorem X7_profile_conversion_before_metrics :
  forall self location tc mc c,
    metric_prior mc = true ->
    composes (XpkTask.post_process self (option_map Prior location)) tc mc c
      (fun w =>
         exists process_id metric_processing,
           map fst (select (called generate_process_id) w) = [process_id]
           /\ map fst (select (called process_metrics) w)
              = [metric_processing]
           /\ In (process_id, metric_processing) (edges w)
           /\ match profile_of mc with
              | Some p =>
                  exists conversion,
                    map (fun rt => (fst rt, t_args (snd rt)))
                        (select (called xplane_to_metrics) w)
                    = [(conversion, [ALoc (profile_file_location p)])]
                    /\ In (process_id, conversion) (edges w)
                    /\ In (conversion, metric_processing) (edges w)
              | None => select (called xplane_to_metrics) w = []
              end).
Proof.
  intros self location tc mc c H.
  metric_cases mc H; destruct location;
    (pipeline placeable_xpk_post_process;
     do 2 eexists;
     split; [vm_compute; reflexivity|];
     split; [vm_compute; reflexivity|];
     split; [dependency|];
     cbn [profile_of profile];
     first [ vm_compute; reflexivity
           | eexists; split; [vm_compute; reflexivity|];
             split; dependency ]).
Qed.

Lemma X7_profile_conversion_before_metrics_witness :
  composes (XpkTask.post_process example_xpk_task None)
    example_test_config (Some example_metric_config) []
    (fun w =>
       exists process_id metric_processing,
         map fst (select (called generate_process_id) w) = [process_id]
         /\ map fst (select (called process_metrics) w) = [metric_processing]
         /\ In (process_id, metric_processing) (edges w)
         /\ select (called xplane_to_metrics) w = []).
Proof.
  apply (X7_profile_conversion_before_metrics example_xpk_task None
           example_test_config (Some example_metric_config) [] eq_refl).
Defined.

(** ** What is provisioned is what is used and cleaned up *)

(** A call with its reference and its first three positional arguments. *)
Definition ssh_call (rt : ref * task) : ref * list arg :=
  (fst rt, firstn 3 (t_args (snd rt))).

Definition with_args (rt : ref * task) : ref * list arg :=
  (fst rt, t_args (snd rt)).

(** X8.  In every pipeline of [run_queued_resource_test], one TPU name and
    one SSH key pair are generated; the queued resource is created under
    that name with those keys; the setup script and then the test script
    run on that resource with the same keys, the setup directly after the
    creation and the test directly after the setup; and the cleanup
    deletes that resource and nothing else. *)
Theorem X8_queued_resource_identity :
  forall gcp tmo env_var all_workers tc mc c,
    composes (run_queued_resource_test gcp tmo env_var all_workers) tc mc c
      (fun w =>
         exists tpu_name ssh_keys resource setup runner,
           map with_args (select (called generate_tpu_name) w)
           = [(tpu_name, [AStr (benchmark_id tc); ABool env_var])]
           /\ map fst (select (called generate_ssh_keys) w) = [ssh_keys]
           /\ map with_args (select (called create_queued_resource) w)
              = [(resource, [AXCom tpu_name; AGcp gcp; AXCom ssh_keys;
                             ATimedelta tmo; AObject The_task_test_config])]
           /\ map ssh_call (select (called ssh_tpu) w)
              = [(setup, [AXCom resource; AStr (setup_script tc);
                          AXCom ssh_keys]);
                 (runner, [AXCom resource; AStr (test_script tc);
                           AXCom ssh_keys])]
           /\ In (resource, setup) (edges w)
           /\ In (setup, runner) (edges w)
           /\ map (fun rt => (t_args (snd rt), t_kwargs (snd rt)))
                  (select (in_stage Cleanup) w)
              = [([AXCom resource], [])]).
Proof.
  intros. pipeline placeable_run_queued_resource_test.
  do 5 eexists.
  split; [vm_compute; reflexivity|]. split; [vm_compute; reflexivity|].
  split; [vm_compute; reflexivity|]. split; [vm_compute; reflexivity|].
  split; [dependency|]. split; [dependency|]. vm_compute. reflexivity.
Qed.

(** X9.  [GpuCreateResourceTask.run] on a new instance: one VM name and one
    key pair are generated; the VM is created under that name, from the
    task's image and the test's accelerator, with those keys; the setup
    script and then the test script run on the address the creation
    returns, with the same keys; the cleanup deletes the VM of the
    generated name in the project and zone of [task_gcp_config].  On an
    existing instance no setup script is run: the only SSH call is the
    test script, on the address looked up for the named instance. *)
Theorem X9_gpu_instance_identity :
  forall ip fam gcp tmo drv res tc mc c,
    composes
      (GpuCreateResourceTask.run
         {| GpuCreateResourceTask.image_project := ip;
            GpuCreateResourceTask.image_family := fam;
            GpuCreateResourceTask.task_gcp_config := gcp;
            GpuCreateResourceTask.gpu_create_timeout := tmo;
            GpuCreateResourceTask.install_nvidia_drivers := drv;
            GpuCreateResourceTask.existing_instance_name := None;
            GpuCreateResourceTask.reservation := res |})
      tc mc c
      (fun w =>
         exists gpu_name ssh_keys address setup runner,
           map fst (select (called generate_gpu_name) w) = [gpu_name]
           /\ map fst (select (called generate_ssh_keys) w) = [ssh_keys]
           /\ map (fun rt => (fst rt, t_args (snd rt), t_kwargs (snd rt)))
                  (select (called create_resource) w)
              = [(address,
                  [AXCom gpu_name; AStr ip; AStr fam;
                   AAccelerator (accelerator tc); AGcp gcp; AXCom ssh_keys],
                  [("timeout", ATimedelta tmo);
                   ("install_nvidia_drivers", ABool drv);
                   ("reservation", ABool res)])]
           /\ map ssh_call (select (called ssh_host) w)
              = [(setup, [AXCom address; AStr (setup_script tc);
                          AXCom ssh_keys]);
                 (runner, [AXCom address; AStr (test_script tc);
                           AXCom ssh_keys])]
           /\ In (address, setup) (edges w)
           /\ In (setup, runner) (edges w)
           /\ map (fun rt => (t_callee (snd rt), t_args (snd rt)))
                  (select (in_stage Cleanup) w)
              = [(delete_resource,
                  [AXCom gpu_name; AStr (project_name gcp);
                   AStr (zone gcp)])])
    /\ forall instance,
         composes
           (GpuCreateResourceTask.run
              {| GpuCreateResourceTask.image_project := ip;
                 GpuCreateResourceTask.image_family := fam;
                 GpuCreateResourceTask.task_gcp_config := gcp;
                 GpuCreateResourceTask.gpu_create_timeout := tmo;
                 GpuCreateResourceTask.install_nvidia_drivers := drv;
                 GpuCreateResourceTask.existing_instance_name := Some instance;
                 GpuCreateResourceTask.reservation := res |})
           tc mc c
           (fun w =>
              exists ssh_keys address runner,
                select (labelled "setup") w = []
                /\ map fst (select (called generate_ssh_keys) w) = [ssh_keys]
                /\ map fst (select (called get_existing_resource) w)
                   = [address]
                /\ map ssh_call (select (called ssh_host) w)
                   = [(runner, [AXCom address; AStr (test_script tc);
                                AXCom ssh_keys])]
                /\ In (address, runner) (edges w)).
Proof.
  intros. split; [|intro instance].
  - destruct mc as [[ts p [|]]|];
      (pipeline placeable_gpu_run;
       do 5 eexists;
       split; [vm_compute; reflexivity|]; split; [vm_compute; reflexivity|];
       split; [vm_compute; reflexivity|]; split; [vm_compute; reflexivity|];
       split; [dependency|]; split; [dependency|]; vm_compute; reflexivity).
  - destruct mc as [[ts p [|]]|];
      (pipeline placeable_gpu_run;
       do 3 eexists;
       split; [vm_compute; reflexivity|]; split; [vm_compute; reflexivity|];
       split; [vm_compute; reflexivity|]; split; [vm_compute; reflexivity|];
       dependency).
Qed.

(** ** Time bounds and owners *)



(** ** No dependency cycle *)

(** The length of the longest chain of dependencies that ends in [v],
    followed for at most [n] steps. *)
Fixpoint depth (n : nat) (es : list (ref * ref)) (v : ref) : nat :=
  match n with
  | O => 0
  | S n' =>
      fold_right (fun e d => if ref_eqb (snd e) v
                             then Nat.max d (S (depth n' es (fst e)))
                             else d) 0 es
  end.

Definition acyclic (es : list (ref * ref)) : Prop :=
  forall u, ~ path es u u.

Lemma path_increasing (f : ref -> nat) (es : list (ref * ref)) :
  (forall e, In e es -> f (fst e) < f (snd e)) ->
  forall u v, path es u v -> f u < f v.
Proof.
  intros Hes u v Hp.
  induction Hp as [u v Hin | u m v Hin _ IH].
  - exact (Hes _ Hin).
  - specialize (Hes _ Hin). simpl in Hes. lia.
Qed.

Lemma acyclic_check (n : nat) (es : list (ref * ref)) :
  forallb (fun e => Nat.ltb (depth n es (fst e)) (depth n es (snd e))) es
  = true ->
  acyclic es.
Proof.
  intros H u Hp. rewrite forallb_forall in H.
  assert (Hlt : depth n es u < depth n es u).
  { apply path_increasing with (es := es); [|assumption].
    intros e He. apply Nat.ltb_lt. now apply H. }
  lia.
Qed.

Ltac no_cycle := apply acyclic_check with (n := 16); vm_compute; reflexivity.

(** X11.  The pipelines of [run_queued_resource_test], [XpkTask.run],
    [XpkTask.run_with_run_name_generation] and [GpuCreateResourceTask.run]
    have no dependency cycle: no task is, directly or through other tasks,
    downstream of itself. *)
Theorem X11_no_dependency_cycle :
  forall tc mc c,
    metric_prior mc = true ->
    (forall gcp tmo env_var all_workers,
       composes (run_queued_resource_test gcp tmo env_var all_workers)
         tc mc c (fun w => acyclic (edges w)))
    /\ (forall self g tb pw skip rd mtc br,
          composes
            (XpkTask.run self (option_map Prior g) tb pw skip rd mtc br)
            tc mc c (fun w => acyclic (edges w)))
    /\ (forall self pw br env nested m s,
          mc = Some m -> tensorboard_summary m = Some s ->
          composes
            (XpkTask.run_with_run_name_generation self pw br env nested)
            tc mc c (fun w => acyclic (edges w)))
    /\ (forall self,
          composes (GpuCreateResourceTask.run self) tc mc c
            (fun w => acyclic (edges w))).
Proof.
  intros tc mc c H. split; [|split; [|split]].
  - intros. pipeline placeable_run_queued_resource_test. no_cycle.
  - intros. metric_cases mc H; destruct g, skip;
      (pipeline placeable_xpk_run; no_cycle).
  - intros self pw br env nested m s Hm Hs.
    metric_cases mc H; try discriminate Hm; injection Hm as <-;
      simpl in Hs; try discriminate Hs;
      (pipeline placeable_xpk_run_with_run_name_generation; no_cycle).
  - intros self.
    destruct self as [ip fam gcp tmo drv [e|] res], mc as [[ts p [|]]|];
      (pipeline placeable_gpu_run; no_cycle).
Qed.

Lemma X11_no_dependency_cycle_witness :
  composes
    (XpkTask.run_with_run_name_generation example_xpk_task false "main"
       "M_RUN_NAME" true)
    example_test_config (Some example_metric_config) []
    (fun w => acyclic (edges w)).
Proof.
  apply (proj1 (proj2 (proj2 (X11_no_dependency_cycle example_test_config
                                (Some example_metric_config) [] eq_refl)))
           example_xpk_task false "main" "M_RUN_NAME" true
           example_metric_config
           {| summary_file_location := LocStr "gs://maxtext-xlml/tb" |}
           eq_refl eq_refl).
Defined.

(** ** Task ids *)

Fixpoint distinctb (l : list (list string)) : bool :=
  match l with
  | [] => true
  | x :: r =>
      if in_dec (list_eq_dec string_dec) x r then false else distinctb r
  end.

Lemma distinctb_NoDup (l : list (list string)) :
  distinctb l = true -> NoDup l.
Proof.
  induction l as [|x r IH]; simpl; intro H; [constructor|].
  destruct (in_dec (list_eq_dec string_dec) x r); [discriminate|].
  constructor; auto.
Qed.

(** The ids of a task below the pipeline group. *)
Definition id_below (t : task) : list string := tl (id_path t).

Lemma distinct_ids (w : world) :
  distinctb (map id_below (tasks w)) = true ->
  NoDup (map id_path (tasks w)).
Proof.
  intro H. apply distinctb_NoDup in H.
  apply (NoDup_map_inv (@tl string)). now rewrite map_map.
Qed.

Ltac distinct := apply distinct_ids; lazy; reflexivity.

(** X12.  Within a pipeline of [run_queued_resource_test], [XpkTask.run],
    [XpkTask.run_with_run_name_generation] or [GpuCreateResourceTask.run]
    no two tasks have the same id: the paths of group ids and task id, from
    the pipeline group down, are pairwise distinct. *)
Theorem X12_task_ids_distinct :
  (forall gcp tmo env_var all_workers tc mc c,
     composes (run_queued_resource_test gcp tmo env_var all_workers) tc mc c
       (fun w => NoDup (map id_path (tasks w))))
  /\ (forall self g tb pw skip rd mtc br tc mc c,
        composes (XpkTask.run self g tb pw skip rd mtc br) tc mc c
          (fun w => NoDup (map id_path (tasks w))))
  /\ (forall self pw br env nested tc s p u c,
        composes (XpkTask.run_with_run_name_generation self pw br env nested)
          tc (Some {| tensorboard_summary := Some s; profile := p;
                      use_runtime_generated_gcs_folder := u |}) c
          (fun w => NoDup (map id_path (tasks w))))
  /\ (forall self tc mc c,
        composes (GpuCreateResourceTask.run self) tc mc c
          (fun w => NoDup (map id_path (tasks w)))).
Proof.
  split; [|split; [|split]].
  - intros. pipeline_lazy placeable_run_queued_resource_test. distinct.
  - intros. destruct g, skip, mc as [[ts [pf|] u]|];
      (pipeline_lazy placeable_xpk_run; distinct).
  - intros. destruct p as [pf|];
      (pipeline_lazy placeable_xpk_run_with_run_name_generation; distinct).
  - intros self tc mc c.
    destruct self as [ip fam gcp tmo drv [e|] res], mc as [[ts p [|]]|];
      (pipeline_lazy placeable_gpu_run; distinct).
Qed.

(** ** What a failed composition leaves behind *)

(** X13.  A composition that raises has already put a task into the DAG.
    When [run_with_run_name_generation] raises for want of a metric
    configuration or of a tensorboard summary, the state holds the
    [generate_run_name] task in the pipeline group, no dependency, and the
    configuration objects as they were.  When [GpuGkeTask.run] raises
    because [shlex.split] rejects a script, the state holds the
    [generate_gcs_folder_location] task alone. *)
Theorem X13_state_after_raise :
  (forall self pw br env nested tc mc c,
     match mc with
     | Some {| tensorboard_summary := Some _ |} => True
     | _ =>
         exists e,
           XpkTask.run_with_run_name_generation self pw br env nested c
             (init tc mc)
           = (Raise e,
              {| tasks :=
                   [{| t_callee := generate_run_name; t_override := [];
                       t_args := [AStr (benchmark_id tc)]; t_kwargs := [];
                       t_groups := {| group_id := benchmark_id tc;
                                      prefix_group_id := true |} :: c |}];
                 edges := [];
                 task_test_config := tc;
                 task_metric_config := mc |})
     end)
  /\ (forall shlex self tc mc c,
        match shlex (setup_script tc), shlex (test_script tc) with
        | Some _, Some _ => True
        | _, _ =>
            GpuGkeTask.run shlex self c (init tc mc)
            = (Raise ValueError,
               {| tasks :=
                    [{| t_callee := generate_gcs_folder_location;
                        t_override := [];
                        t_args := [AStr (gcs_subfolder tc);
                                   AStr (benchmark_id tc)];
                        t_kwargs := [];
                        t_groups := {| group_id := benchmark_id tc;
                                       prefix_group_id := true |} :: c |}];
                  edges := [];
                  task_test_config := tc;
                  task_metric_config := mc |})
        end).
Proof.
  split.
  - intros. destruct mc as [[[ts|] p u]|]; [exact I | |];
      eexists; lazy; reflexivity.
  - intros shlex self tc mc c.
    destruct tc as [bid tn sub setup test tmo own cmds cl img acc ns nh].
    cbn [setup_script test_script].
    destruct (shlex setup) as [command|] eqn:E1;
      [destruct (shlex test) as [args|] eqn:E2|]; [exact I | |].
    + vm_compute. rewrite E1, E2. reflexivity.
    + vm_compute. rewrite E1. reflexivity.
Qed.

(** ** Run-name exports pile up *)

(** X14.  In any state in which the metric configuration has a tensorboard
    summary, a call of [run_with_run_name_generation] puts one more export
    in front of [run_model_cmds], naming the run name it has just
    generated, and keeps every command that was there: calls on one task
    object pile their exports up. *)
Theorem X14_exports_pile_up :
  forall self pw br env nested c w m s,
    task_metric_config w = Some m ->
    tensorboard_summary m = Some s ->
    run_model_cmds
      (task_test_config
         (snd (XpkTask.run_with_run_name_generation self pw br env nested
                 c w)))
    = CmdExport env (Fresh (length (tasks w)))
        :: run_model_cmds (task_test_config w).
Proof.
  intros self pw br env nested c w m s Hm Hs.
  destruct w as [ts es tc mc]. simpl in Hm. subst mc.
  destruct m as [summary p u]. simpl in Hs. subst summary.
  destruct p; lazy; reflexivity.
Qed.

Lemma X14_exports_pile_up_witness :
  run_model_cmds
    (task_test_config
       (snd (XpkTask.run_with_run_name_generation example_xpk_task false
               "main" "M_RUN_NAME" true []
               (init example_test_config (Some example_metric_config)))))
  = [CmdExport "M_RUN_NAME" (Fresh 0);
     Cmd "bash end_to_end/tpu/test_decode.sh"].
Proof.
  apply (X14_exports_pile_up example_xpk_task false "main" "M_RUN_NAME" true
           [] (init example_test_config (Some example_metric_config))
           example_metric_config
           {| summary_file_location := LocStr "gs://maxtext-xlml/tb" |}
           eq_refl eq_refl).
Defined.

(** ** The node a composing call returns *)

(** Every task lies in the group opened first, named after the benchmark
    id with [prefix_group_id]. *)
Definition inside_benchmark_group (tc : TestConfig) (w : world) : Prop :=
  Forall (fun t => last (t_groups t) {| group_id := ""; prefix_group_id := false |}
                   = {| group_id := benchmark_id tc; prefix_group_id := true |})
         (tasks w).

Definition returns_its_group (m : M dagnode) (tc : TestConfig)
    (mc : option MetricConfig) (c : list group_entry) : Prop :=
  fst (m c (init tc mc))
  = Ok (NGroup 0 (length (tasks (snd (m c (init tc mc)))))).

(** X15.  What each composing operation returns is one task group, named
    after the benchmark id, that holds every task the call has created:
    the group spans all the new tasks, and the outermost group the call
    opened around each of them is that group. *)
Theorem X15_returned_group :
  (forall gcp tmo env_var all_workers tc mc c,
     returns_its_group (run_queued_resource_test gcp tmo env_var all_workers)
       tc mc c
     /\ composes (run_queued_resource_test gcp tmo env_var all_workers)
          tc mc c (inside_benchmark_group tc))
  /\ (forall self g tb pw skip rd mtc br tc mc c,
        returns_its_group (XpkTask.run self g tb pw skip rd mtc br) tc mc c
        /\ composes (XpkTask.run self g tb pw skip rd mtc br) tc mc c
             (inside_benchmark_group tc))
  /\ (forall self pw br env nested tc s p u c,
        let mc := Some {| tensorboard_summary := Some s; profile := p;
                          use_runtime_generated_gcs_folder := u |} in
        returns_its_group
          (XpkTask.run_with_run_name_generation self pw br env nested)
          tc mc c
        /\ composes
             (XpkTask.run_with_run_name_generation self pw br env nested)
             tc mc c (inside_benchmark_group tc))
  /\ (forall self tc mc c,
        returns_its_group (GpuCreateResourceTask.run self) tc mc c
        /\ composes (GpuCreateResourceTask.run self) tc mc c
             (inside_benchmark_group tc)).
Proof.
  split; [|split; [|split]].
  - intros. split; [lazy; reflexivity|].
    pipeline_lazy placeable_run_queued_resource_test.
    lazy. repeat constructor.
  - intros. destruct g, skip, mc as [[ts [pf|] u]|];
      (split; [lazy; reflexivity|];
       pipeline_lazy placeable_xpk_run; lazy; repeat constructor).
  - intros. subst mc. destruct p as [pf|];
      (split; [lazy; reflexivity|];
       pipeline_lazy placeable_xpk_run_with_run_name_generation;
       lazy; repeat constructor).
  - intros self tc mc c.
    destruct self as [ip fam gcp tmo drv [e|] res], mc as [[ts p [|]]|];
      (split; [lazy; reflexivity|];
       pipeline_lazy placeable_gpu_run; lazy; repeat constructor).
Qed.

(** ** Region and zone *)

Lemma substring_prefix (s : string) :
  forall n, String.prefix (String.substring 0 n s) s = true.
Proof.
  induction s as [|a s IH]; intro n.
  - destruct n; reflexivity.
  - destruct n as [|n]; simpl; [reflexivity|].
    destruct (Ascii.ascii_dec a a) as [_|N]; [apply IH | now destruct N].
Qed.

Lemma substring_length (s : string) :
  forall n, n <= String.length s ->
            String.length (String.substring 0 n s) = n.
Proof.
  induction s as [|a s IH]; intros n H; simpl in H.
  - destruct n; [reflexivity | lia].
  - destruct n as [|n]; simpl; [reflexivity|]. rewrite IH; lia.
Qed.

Definition region_of (t : task) : option arg := assoc "region" (t_kwargs t).

Definition zone_of (t : task) : option arg := assoc "zone" (t_kwargs t).

(** X16.  The region of the XPK pipeline is the zone cut by its last two
    characters: always a prefix of the zone, two characters shorter, and
    empty for a zone of fewer than two characters.  [XpkTask.run_model]
    gives the two waits that region, and the launch and the deletion the
    zone itself. *)
Theorem X16_region_of_zone :
  (forall z,
     String.prefix (drop_last2 z) z = true
     /\ String.length (drop_last2 z) = String.length z - 2)
  /\ (forall self g tb pw rd mtc br tc mc c,
        composes (xpk_run_model_node self g tb pw rd mtc br) tc mc c
          (fun w =>
             let z := zone (XpkTask.task_gcp_config self) in
             map (fun rt => (t_callee (snd rt), zone_of (snd rt),
                             region_of (snd rt)))
                 (select workload_step w)
             = [(run_workload, Some (AStr z), None);
                (wait_for_workload_start, None, Some (AStr (drop_last2 z)));
                (wait_for_workload_completion, None,
                 Some (AStr (drop_last2 z)));
                (clean_up_workload, Some (AStr z), None)])).
Proof.
  split.
  - intro z. unfold drop_last2. split.
    + apply substring_prefix.
    + apply substring_length. lia.
  - intros.
    assert (P : placeable (xpk_run_model_node self g tb pw rd mtc br))
      by (pose proof placeable_xpk_run_model; unfold xpk_run_model_node;
          placeable).
    destruct g; (pipeline_lazy P; lazy; reflexivity).
Qed.

(** ** The deadline of the batch job *)




(** ** The batch job and its artifact location *)

(** X18.  When both scripts tokenise, [GpuGkeTask.run] generates one
    artifact location for the benchmark; the job is submitted with the
    manifest of the test configuration, the task's GCP configuration,
    cluster name and creation timeout, and that location, directly after
    the location is generated; the manifest's container runs the tokens of
    the setup script as command and those of the test script as arguments;
    and [process_metrics] gets the same location as [folder_location]. *)
Theorem X18_batch_job_wiring :
  forall shlex self tc mc c,
    match shlex (setup_script tc), shlex (test_script tc) with
    | Some command, Some args =>
        composes (GpuGkeTask.run shlex self) tc mc c
          (fun w =>
             exists location job,
               map with_args (select (called generate_gcs_folder_location) w)
               = [(location, [AStr (gcs_subfolder tc);
                              AStr (benchmark_id tc)])]
               /\ map with_args (select (called run_job) w)
                  = [(job,
                      [AJson (GpuGkeTask.job_manifest tc command args);
                       AGcp (GpuGkeTask.task_gcp_config self);
                       AStr (GpuGkeTask.cluster_name self);
                       ATimedelta (GpuGkeTask.job_create_timeout self);
                       AXCom location])]
               /\ In (location, job) (edges w)
               /\ map (fun rt => assoc "folder_location" (t_kwargs (snd rt)))
                      (select (called process_metrics) w)
                  = [Some (AXCom location)])
        /\ jget (container_path ++ [Key "command"])
                (GpuGkeTask.job_manifest tc command args)
           = Some (JList (map JStr command))
        /\ jget (container_path ++ [Key "args"])
                (GpuGkeTask.job_manifest tc command args)
           = Some (JList (map JStr args))
    | _, _ =>
        exists w, GpuGkeTask.run shlex self c (init tc mc)
                  = (Raise ValueError, w)
    end.
Proof.
  intros shlex self tc mc c.
  destruct tc as [bid tn sub setup test tmo own cmds cl img acc ns nh].
  cbn [setup_script test_script].
  destruct (shlex setup) as [command|] eqn:E1;
    [destruct (shlex test) as [args|] eqn:E2|].
  - split; [|split; reflexivity].
    eapply composes_intro; [apply placeable_gke_run | | ].
    + vm_compute. rewrite E1, E2. reflexivity.
    + do 2 eexists.
      split; [vm_compute; reflexivity|]. split; [vm_compute; reflexivity|].
      split; [dependency | vm_compute; reflexivity].
  - eexists. vm_compute. rewrite E1, E2. reflexivity.
  - eexists. vm_compute. rewrite E1. reflexivity.
Qed.

(** ** What the workload is launched with *)

Definition kwargs_at (keys : list string) (t : task) : list (option arg) :=
  map (fun k => assoc k (t_kwargs t)) keys.

Definition launch_flags : list string :=
  ["use_vertex_tensorboard"; "use_pathways"; "ramdisk_directory";
   "mtc_enabled"; "xpk_branch"].

Definition launch_target : list string :=
  ["cluster_project"; "zone"; "cluster_name"; "benchmark_id"; "docker_image";
   "accelerator_type"; "num_slices"].

(** X19.  [XpkTask.run] launches one workload, in the project and zone of
    [task_gcp_config], on the cluster of the test, with the test's
    benchmark id, docker image, accelerator name and slice count, and
    hands each of its own options to the launch under the option's name.
    [run_with_run_name_generation] hands over [use_pathways] and
    [xpk_branch] only: its workload is always launched without Vertex
    tensorboard, without a ramdisk directory and with [mtc_enabled] off. *)
Theorem X19_workload_launch_options :
  (forall self g tb pw skip rd mtc br tc mc c,
     composes (XpkTask.run self g tb pw skip rd mtc br) tc mc c
       (fun w =>
          map (fun rt => kwargs_at launch_target (snd rt))
              (select (called run_workload) w)
          = [[Some (AStr (project_name (XpkTask.task_gcp_config self)));
              Some (AStr (zone (XpkTask.task_gcp_config self)));
              Some (AStr (cluster_name tc));
              Some (AStr (benchmark_id tc));
              Some (AStr (docker_image tc));
              Some (AStr (name (accelerator tc)));
              Some (AInt (num_slices tc))]]
          /\ map (fun rt => kwargs_at launch_flags (snd rt))
                 (select (called run_workload) w)
             = [[Some (ABool tb); Some (ABool pw); Some (AStr rd);
                 Some (ABool mtc); Some (AStr br)]]))
  /\ (forall self pw br env nested tc s p u c,
        composes (XpkTask.run_with_run_name_generation self pw br env nested)
          tc (Some {| tensorboard_summary := Some s; profile := p;
                      use_runtime_generated_gcs_folder := u |}) c
          (fun w =>
             map (fun rt => kwargs_at launch_flags (snd rt))
                 (select (called run_workload) w)
             = [[Some (ABool false); Some (ABool pw); Some (AStr "");
                 Some (ABool false); Some (AStr br)]])).
Proof.
  split.
  - intros. destruct g, skip, mc as [[ts [pf|] u]|];
      (pipeline_lazy placeable_xpk_run; split; lazy; reflexivity).
  - intros. destruct p as [pf|];
      (pipeline_lazy placeable_xpk_run_with_run_name_generation;
       lazy; reflexivity).
Qed.

(** ** One post-processing contract for all backends *)

(** One process id is generated; [process_metrics] gets it, the two
    configuration objects and [gcp], with [location] as
    [folder_location]. *)
Definition metrics_contract (gcp : GCPConfig) (location : arg) (w : world)
    : Prop :=
  exists process_id,
    map fst (select (called generate_process_id) w) = [process_id]
    /\ map (fun rt => (t_args (snd rt), t_kwargs (snd rt)))
           (select (called process_metrics) w)
       = [([AXCom process_id; AObject The_task_test_config;
            AObject The_task_metric_config; AGcp gcp],
           [("folder_location", location)])].

(** X20.  The post-processing of all four backends has one contract:
    [process_metrics] is called once, with the generated process id, the
    test and metric configuration objects, the GCP configuration of the
    task and, as [folder_location], the result location the stage was
    given ([None] when it was given none). *)
Theorem X20_post_process_contract :
  (forall gcp tmo env_var all_workers tc mc c,
     composes (run_queued_resource_test gcp tmo env_var all_workers) tc mc c
       (fun w => exists location,
                   map fst (select (called generate_gcs_folder_location) w)
                   = [location]
                   /\ metrics_contract gcp (AXCom location) w))
  /\ (forall self location tc mc c,
        composes (XpkTask.post_process self location) tc mc c
          (metrics_contract (XpkTask.task_gcp_config self)
             (opt_xcom location)))
  /\ (forall self location tc mc c,
        composes (GpuCreateResourceTask.post_process self location) tc mc c
          (metrics_contract (GpuCreateResourceTask.task_gcp_config self)
             (opt_xcom location)))
  /\ (forall self location tc mc c,
        composes (GpuGkeTask.post_process self location) tc mc c
          (metrics_contract (GpuGkeTask.task_gcp_config self)
             (opt_xcom location))).
Proof.
  split; [|split; [|split]].
  - intros. pipeline_lazy placeable_run_queued_resource_test.
    eexists. split; [lazy; reflexivity|].
    eexists. split; lazy; reflexivity.
  - intros. destruct location, mc as [[ts [pf|] u]|];
      (pipeline_lazy placeable_xpk_post_process;
       eexists; split; lazy; reflexivity).
  - intros.
    assert (P : placeable (GpuCreateResourceTask.post_process self location))
      by (unfold GpuCreateResourceTask.post_process; placeable).
    destruct location;
      (pipeline_lazy P; eexists; split; lazy; reflexivity).
  - intros.
    assert (P : placeable (GpuGkeTask.post_process self location))
      by (unfold GpuGkeTask.post_process; placeable).
    destruct location;
      (pipeline_lazy P; eexists; split; lazy; reflexivity).
Qed.
